(** * Order ingestion and order listing of the e-commerce backend

    A shallow embedding of [app/api/orders.py] and [app/api/products.py]
    together with the parts of [app/models.py] and of the document store
    they rely on, followed by the properties of [create_order],
    [get_user_orders], [create_product] and [list_products].

    Conventions.
    - A Python [str] is a [string]; each [ascii] stands for one character
      (a code point below 256).
    - A Python [int] is a [Z]; a Python [float] and a BSON double are a
      binary64 [float].
    - The two collections are finite maps from [_id] to document, so that
      [_id] is unique inside a collection, as the store guarantees. *)

From Stdlib Require Import Ascii Floats ZArith Uint63 HexadecimalString HexadecimalN.
From stdpp Require Import gmap strings list sorting pretty.

Set Warnings "-inexact-float".
Local Open Scope Z_scope.

(** ** Python built-ins used by the handlers *)

Module Py.

(** [str.isspace] on one character: 0x09-0x0D, 0x1C-0x20, 0x85 and 0xA0 are
    the white-space characters below 256. *)
Definition isspace (c : ascii) : bool :=
  let n := N_of_ascii c in
  ((9 <=? n) && (n <=? 13) || (28 <=? n) && (n <=? 32)
   || (n =? 133) || (n =? 160))%N.

Fixpoint lstrip (s : string) : string :=
  match s with
  | EmptyString => EmptyString
  | String c s' => if isspace c then lstrip s' else s
  end.

Fixpoint rstrip (s : string) : string :=
  match s with
  | EmptyString => EmptyString
  | String c s' =>
      match rstrip s' with
      | EmptyString => if isspace c then EmptyString else String c EmptyString
      | r => String c r
      end
  end.

(** [s.strip()]: leading and trailing white space removed. *)
Definition strip (s : string) : string := rstrip (lstrip s).

(** [str(n)] for an [int]: its decimal numeral, with a sign when negative. *)
Definition str (n : Z) : string := pretty n.

(** Truth value of a string: [not s] holds of the empty string only. *)
Definition not_ (s : string) : bool :=
  match s with EmptyString => true | _ => false end.

Definition first_char (s : string) : option ascii :=
  match s with EmptyString => None | String c _ => Some c end.

Fixpoint last_char (s : string) : option ascii :=
  match s with
  | EmptyString => None
  | String c EmptyString => Some c
  | String _ s' => last_char s'
  end.

Definition leading_whitespace (s : string) : bool :=
  match first_char s with Some c => isspace c | None => false end.

Definition trailing_whitespace (s : string) : bool :=
  match last_char s with Some c => isspace c | None => false end.

(** [re.escape(s)]: a backslash before each of the characters
    [()[]{}?*+-|^$\.&~#], the space and the tab, line feed, carriage
    return, vertical tab and form feed. *)
Definition re_special (c : ascii) : bool :=
  let n := N_of_ascii c in
  bool_decide (n ∈ [40; 41; 91; 93; 123; 125; 63; 42; 43; 45; 124; 94; 36;
                    92; 46; 38; 126; 35; 32; 9; 10; 13; 11; 12]%N).

Fixpoint re_escape (s : string) : string :=
  match s with
  | EmptyString => EmptyString
  | String c s' =>
      if re_special c then String "\"%char (String c (re_escape s'))
      else String c (re_escape s')
  end.

End Py.

(** ** [bson.ObjectId] *)

Module bson.

(** An [ObjectId] is carried as the big-endian value of its twelve bytes:
    the store compares identities bytewise, which is the order of these
    values. *)
Definition ObjectId : Type := N.

Definition hexdigit (c : ascii) : option N :=
  let n := N_of_ascii c in
  (if (48 <=? n) && (n <=? 57) then Some (n - 48)
   else if (97 <=? n) && (n <=? 102) then Some (n - 87)
   else if (65 <=? n) && (n <=? 70) then Some (n - 55)
   else None)%N.

Fixpoint fromhex (acc : N) (s : string) : option N :=
  match s with
  | EmptyString => Some acc
  | String c s' =>
      match hexdigit c with
      | Some d => fromhex (16 * acc + d)%N s'
      | None => None
      end
  end.

(** [ObjectId(s)] for a [str]: a 24-character hexadecimal string is
    accepted, anything else raises [InvalidId] ([None]). *)
Definition ObjectId_init (s : string) : option ObjectId :=
  if (String.length s =? 24)%nat then fromhex 0%N s else None.

Fixpoint zfill (k : nat) (s : string) : string :=
  match k with
  | O => s
  | S k' => String "0"%char (zfill k' s)
  end.

(** [str(oid)]: the 24 lower-case hexadecimal digits of the identity. *)
Definition str (oid : ObjectId) : string :=
  let h := HexadecimalString.NilEmpty.string_of_uint (N.to_hex_uint oid) in
  zfill (24 - String.length h) h.

Definition unhex (s : string) : option N :=
  N.of_hex_uint <$> HexadecimalString.NilEmpty.uint_of_string s.

End bson.

Abbreviation ObjectId := bson.ObjectId.

(** ** What a request can raise *)

Inductive Raised : Type :=
  | RequestValidationError
      (** a constraint declared on a model field or on a path or query
          parameter does not hold: the framework rejects the request before
          the handler body runs *)
  | HTTPException (status_code : Z) (detail : string).

Definition Result (A : Type) : Type := Raised + A.

Definition raise {A} (e : Raised) : Result A := inl e.

#[global] Instance Result_ret : MRet Result := λ A a, inr a.
#[global] Instance Result_bind : MBind Result := λ A B k m,
  match m with
  | inl e => inl e
  | inr a => k a
  end.

(** ** [app/models.py] *)

Module models.

Module SizeQuantity.
Record t := { size : string; quantity : Z }.
(** [quantity: int = Field(..., ge=0)] *)
Definition validate (s : t) : bool := 0 <=? quantity s.
End SizeQuantity.

Module ProductCreate.
Record t := { name : string; price : float; sizes : list SizeQuantity.t }.
(** [name: str = Field(..., min_length=1)], [price: float = Field(..., gt=0)],
    [sizes: List[SizeQuantity] = Field(..., min_items=1)] *)
Definition validate (p : t) : bool :=
  (1 <=? String.length (name p))%nat
  && PrimFloat.ltb 0%float (price p)
  && (1 <=? length (sizes p))%nat
  && forallb SizeQuantity.validate (sizes p).
End ProductCreate.

Module ProductResponse.
Record t := { id : string }.
End ProductResponse.

Module ProductListDetails.
Record t := { id : string; name : string; price : float }.
End ProductListDetails.

Module Pagination.
Record t := {
  next : option string;
  limit : Z;
  offset : Z;
  previous : option string
}.
End Pagination.

Module OrderItemCreate.
Record t := { productId : string; qty : Z }.
(** [qty: int = Field(..., gt=0)] *)
Definition validate (i : t) : bool := 0 <? qty i.
End OrderItemCreate.

Module OrderCreate.
Record t := { userId : string; items : list OrderItemCreate.t }.
(** [items: List[OrderItemCreate] = Field(..., min_items=1)] *)
Definition validate (o : t) : bool :=
  (1 <=? length (items o))%nat && forallb OrderItemCreate.validate (items o).
End OrderCreate.

Module OrderResponse.
Record t := { id : string }.
End OrderResponse.

Module ProductDetails.
Record t := { id : string; name : string }.
End ProductDetails.

Module OrderItemDetails.
Record t := { productDetails : ProductDetails.t; qty : Z }.
End OrderItemDetails.

Module OrderListDetails.
Record t := {
  id : string;
  items : list OrderItemDetails.t;
  total : float
}.
End OrderListDetails.

Module OrderListResponse.
Record t := { data : list OrderListDetails.t; page : Pagination.t }.
End OrderListResponse.

Module ProductListResponse.
Record t := { data : list ProductListDetails.t; page : Pagination.t }.
End ProductListResponse.

End models.

(** ** The document store ([app/database.py]) *)

(** The store's arithmetic on numbers: [$multiply] of an integer and a
    double, and the [$sum] accumulator, which receives the values of one
    group in the order in which the documents reach it. *)
Class Arithmetic := {
  op_multiply : Z → float → float;
  op_sum : list float → float
}.

(** The store's regular expressions: [regex_search pattern options s] tells
    whether [{"$regex": pattern, "$options": options}] matches the string
    [s]. *)
Class RegexEngine := {
  regex_search : string → string → string → bool
}.

Module database.

Module Product.
(** a document of [products], as [create_product] inserts it *)
Record t := {
  name : string;
  price : float;
  sizes : list models.SizeQuantity.t
}.
End Product.

Module OrderItem.
Record t := { productId : ObjectId; qty : Z }.
End OrderItem.

Module Order.
(** a document of [orders], as [create_order] inserts it *)
Record t := { userId : string; items : list OrderItem.t }.
End Order.

Record db := {
  products : gmap ObjectId Product.t;
  orders : gmap ObjectId Order.t
}.

(** [count_documents({"_id": {"$in": ids}})] *)
Definition count_documents_id_in {A} (ids : list ObjectId)
    (coll : gmap ObjectId A) : nat :=
  length (filter (λ kv, kv.1 ∈ ids) (map_to_list coll)).

(** [insert_one(doc)]: the document is stored under the identity generated
    for it; [None] when that identity is taken (a duplicate key). *)
Definition insert_one {A} (inserted_id : ObjectId) (doc : A)
    (coll : gmap ObjectId A) : option (gmap ObjectId A) :=
  match coll !! inserted_id with
  | Some _ => None
  | None => Some (<[inserted_id := doc]> coll)
  end.

(** *** Aggregation *)

(** A document travelling through the pipeline: an order, whose [items]
    and [productInfo] fields change shape from stage to stage. *)
Module Doc.
Record t (I P : Type) := {
  _id : ObjectId;
  userId : string;
  items : I;
  productInfo : P
}.
Arguments _id {I P} _.
Arguments userId {I P} _.
Arguments items {I P} _.
Arguments productInfo {I P} _.
Definition set_items {I J P} (d : t I P) (x : J) : t J P :=
  {| _id := _id d; userId := userId d; items := x;
     productInfo := productInfo d |}.
Definition set_productInfo {I P Q} (d : t I P) (x : Q) : t I Q :=
  {| _id := _id d; userId := userId d; items := items d;
     productInfo := x |}.
End Doc.

(** a product as [$lookup] attaches it: the stored document with its [_id] *)
Definition ProductDoc : Type := ObjectId * Product.t.

Module Pushed.
Record details := { id : ObjectId; name : string }.
Record t := { productDetails : details; qty : Z }.
End Pushed.

Module Grouped.
Record t := { _id : ObjectId; total : float; items : list Pushed.t }.
End Grouped.

(** a stored order as a document of the pipeline *)
Definition doc_of (kv : ObjectId * Order.t) : Doc.t (list OrderItem.t) unit :=
  {| Doc._id := kv.1; Doc.userId := Order.userId kv.2;
     Doc.items := Order.items kv.2; Doc.productInfo := () |}.

Definition kv_of (d : Doc.t (list OrderItem.t) unit) : ObjectId * Order.t :=
  (Doc._id d, {| Order.userId := Doc.userId d; Order.items := Doc.items d |}).

(** the documents of [orders], as the pipeline receives them *)
Definition scan (coll : gmap ObjectId Order.t)
    : list (Doc.t (list OrderItem.t) unit) :=
  doc_of <$> map_to_list coll.

(** [{"$match": {"userId": user_id}}] *)
Definition match_userId {I P} (user_id : string) (docs : list (Doc.t I P))
    : list (Doc.t I P) :=
  filter (λ d, Doc.userId d = user_id) docs.

(** [{"$unwind": "$items"}]: one document per element; none for [[]]. *)
Definition unwind_items {I P} (docs : list (Doc.t (list I) P))
    : list (Doc.t I P) :=
  d ← docs; Doc.set_items d <$> Doc.items d.

(** [{"$lookup": {"from": "products", "localField": "items.productId",
    "foreignField": "_id", "as": "productInfo"}}] *)
Definition lookup_products {P} (products : gmap ObjectId Product.t)
    (docs : list (Doc.t OrderItem.t P))
    : list (Doc.t OrderItem.t (list ProductDoc)) :=
  (λ d, Doc.set_productInfo d
          (let k := OrderItem.productId (Doc.items d) in
           option_list ((λ p, (k, p)) <$> products !! k)))
  <$> docs.

(** [{"$unwind": "$productInfo"}] *)
Definition unwind_productInfo {I P} (docs : list (Doc.t I (list P)))
    : list (Doc.t I P) :=
  d ← docs; Doc.set_productInfo d <$> Doc.productInfo d.

(** [$group]: the state of one group while documents arrive *)
Record group_state := {
  group_key : ObjectId;
  group_values : list float;
  group_pushed : list Pushed.t
}.

Section group.
Context {arith : Arithmetic}.

(** ["$multiply": ["$items.qty", "$productInfo.price"]] *)
Definition sum_operand (d : Doc.t OrderItem.t ProductDoc) : float :=
  op_multiply (OrderItem.qty (Doc.items d))
              (Product.price (Doc.productInfo d).2).

(** ["$push": {"productDetails": {"id": "$productInfo._id",
    "name": "$productInfo.name"}, "qty": "$items.qty"}] *)
Definition push_operand (d : Doc.t OrderItem.t ProductDoc) : Pushed.t :=
  {| Pushed.productDetails :=
       {| Pushed.id := (Doc.productInfo d).1;
          Pushed.name := Product.name (Doc.productInfo d).2 |};
     Pushed.qty := OrderItem.qty (Doc.items d) |}.

Fixpoint group_add (d : Doc.t OrderItem.t ProductDoc)
    (gs : list group_state) : list group_state :=
  match gs with
  | [] => [ {| group_key := Doc._id d;
               group_values := [sum_operand d];
               group_pushed := [push_operand d] |} ]
  | g :: gs' =>
      if decide (group_key g = Doc._id d)
      then {| group_key := group_key g;
              group_values := group_values g ++ [sum_operand d];
              group_pushed := group_pushed g ++ [push_operand d] |} :: gs'
      else g :: group_add d gs'
  end.

Definition group_step (gs : list group_state)
    (d : Doc.t OrderItem.t ProductDoc) : list group_state :=
  group_add d gs.

Definition group_result (g : group_state) : Grouped.t :=
  {| Grouped._id := group_key g;
     Grouped.total := op_sum (group_values g);
     Grouped.items := group_pushed g |}.

(** [{"$group": {"_id": "$_id", "total": {"$sum": ...},
    "items": {"$push": ...}}}]: one document per distinct [_id]. *)
Definition group_by_id (docs : list (Doc.t OrderItem.t ProductDoc))
    : list Grouped.t :=
  group_result <$> foldl group_step [] docs.
End group.

Definition id_le (a b : Grouped.t) : Prop :=
  (Grouped._id a ≤ Grouped._id b)%N.

#[global] Instance id_le_dec : RelDecision id_le :=
  λ a b, decide (Grouped._id a ≤ Grouped._id b)%N.

(** [{"$sort": {"_id": 1}}] *)
Definition sort_by_id (docs : list Grouped.t) : list Grouped.t :=
  merge_sort id_le docs.

(** [{"$skip": n}] and [{"$limit": n}] *)
Definition skip {A} (n : Z) (docs : list A) : list A := drop (Z.to_nat n) docs.
Definition limit {A} (n : Z) (docs : list A) : list A := take (Z.to_nat n) docs.

End database.

(** ** [app/api/orders.py] *)

Module orders.
Import database.

Section handlers.
Context {arith : Arithmetic}.

(** The loop of [create_order] over [order_dict["items"]]: each [productId]
    is replaced by its [ObjectId]; the first offending item raises. *)
Fixpoint convert_items (items : list models.OrderItemCreate.t)
    : Result (list OrderItem.t) :=
  match items with
  | [] => mret []
  | item :: rest =>
      if models.OrderItemCreate.qty item <=? 0
      then raise (HTTPException 400 "Item quantity must be greater than 0")
      else
        match bson.ObjectId_init (models.OrderItemCreate.productId item) with
        | None =>
            raise (HTTPException 400
                     ("Invalid product ID: "
                        +:+ models.OrderItemCreate.productId item))
        | Some product_id =>
            rest' ← convert_items rest;
            mret ({| OrderItem.productId := product_id;
                     OrderItem.qty := models.OrderItemCreate.qty item |}
                    :: rest')
        end
  end.

(** The checks of [create_order] that precede the insertion. *)
Definition checked_items (d : db) (order : models.OrderCreate.t)
    : Result (list OrderItem.t) :=
  if bool_decide (models.OrderCreate.items order = [])
  then raise (HTTPException 400 "Order must contain at least one item")
  else if Py.not_ (Py.strip (models.OrderCreate.userId order))
  then raise (HTTPException 400 "User ID cannot be empty")
  else
    items ← convert_items (models.OrderCreate.items order);
    let product_ids := OrderItem.productId <$> items in
    let existing_products := count_documents_id_in product_ids (products d) in
    if bool_decide (existing_products ≠ length product_ids)
    then raise (HTTPException 400 "One or more products do not exist")
    else mret items.

(** The body of [create_order]. [inserted_id] is the identity generated for
    the new document. *)
Definition create_order_body (inserted_id : ObjectId) (d : db)
    (order : models.OrderCreate.t) : Result models.OrderResponse.t * db :=
  match checked_items d order with
  | inl e => (inl e, d)
  | inr items =>
      let order_dict :=
        {| Order.userId := models.OrderCreate.userId order;
           Order.items := items |} in
      match insert_one inserted_id order_dict (orders d) with
      | None => (raise (HTTPException 500 "Failed to create order"), d)
      | Some orders' =>
          (mret {| models.OrderResponse.id := bson.str inserted_id |},
           {| products := products d; orders := orders' |})
      end
  end.

(** [POST /orders]: the request body is validated against
    [models.OrderCreate], then the handler body runs. *)
Definition create_order (inserted_id : ObjectId) (d : db)
    (order : models.OrderCreate.t) : Result models.OrderResponse.t * db :=
  if models.OrderCreate.validate order
  then create_order_body inserted_id d order
  else (raise RequestValidationError, d).

(** The stages of [pipeline], applied to the documents [docs] that the
    store reads from [orders]. *)
Definition pipeline_on (docs : list (Doc.t (list OrderItem.t) unit))
    (products : gmap ObjectId Product.t) (user_id : string)
    (limit offset : Z) : list Grouped.t :=
  let docs := match_userId user_id docs in
  let docs := unwind_items docs in
  let docs := lookup_products products docs in
  let docs := unwind_productInfo docs in
  let docs := group_by_id docs in
  let docs := sort_by_id docs in
  let docs := database.skip offset docs in
  database.limit limit docs.

(** [orders_collection.aggregate(pipeline)] *)
Definition pipeline (d : db) (user_id : string) (limit offset : Z)
    : list Grouped.t :=
  pipeline_on (scan (orders d)) (products d) user_id limit offset.

(** The loop over the cursor: identities become strings and the document
    becomes a [models.OrderListDetails]. *)
Definition to_item_details (item : Pushed.t) : models.OrderItemDetails.t :=
  {| models.OrderItemDetails.productDetails :=
       {| models.ProductDetails.id :=
            bson.str (Pushed.id (Pushed.productDetails item));
          models.ProductDetails.name :=
            Pushed.name (Pushed.productDetails item) |};
     models.OrderItemDetails.qty := Pushed.qty item |}.

Definition to_order_details (doc : Grouped.t) : models.OrderListDetails.t :=
  {| models.OrderListDetails.id := bson.str (Grouped._id doc);
     models.OrderListDetails.items := to_item_details <$> Grouped.items doc;
     models.OrderListDetails.total := Grouped.total doc |}.

(** [user_id: str = Path(..., min_length=1, max_length=100)],
    [limit: int = Query(10, ge=1, le=100)], [offset: int = Query(0, ge=0)] *)
Definition parameters_ok (user_id : string) (limit offset : Z) : bool :=
  (1 <=? String.length user_id)%nat && (String.length user_id <=? 100)%nat
  && (1 <=? limit) && (limit <=? 100) && (0 <=? offset).

Definition get_user_orders_body (d : db) (user_id : string) (limit offset : Z)
    : Result models.OrderListResponse.t :=
  let user_id := Py.strip user_id in
  if Py.not_ user_id
  then raise (HTTPException 400 "User ID cannot be empty")
  else
    let order_list := to_order_details <$> pipeline d user_id limit offset in
    let next_offset_str :=
      if bool_decide (Z.of_nat (length order_list) = limit)
      then Some (Py.str (offset + limit)) else None in
    let prev_offset_str :=
      if bool_decide (0 < offset)
      then Some (Py.str (offset - limit)) else None in
    mret {| models.OrderListResponse.data := order_list;
            models.OrderListResponse.page :=
              {| models.Pagination.next := next_offset_str;
                 models.Pagination.limit := limit;
                 models.Pagination.offset := offset;
                 models.Pagination.previous := prev_offset_str |} |}.

(** [GET /orders/{user_id}] *)
Definition get_user_orders (d : db) (user_id : string) (limit offset : Z)
    : Result models.OrderListResponse.t :=
  if parameters_ok user_id limit offset
  then get_user_orders_body d user_id limit offset
  else raise RequestValidationError.

(** *** The listing, stated order by order

    The definitions below follow the description of the listing rather than
    the pipeline: they join, total and keep each order on its own. *)

(** the items of an order whose product exists, each with that product *)
Definition surviving_items (products : gmap ObjectId Product.t)
    (items : list OrderItem.t) : list (OrderItem.t * ProductDoc) :=
  omap (λ item, let k := OrderItem.productId item in
                (λ p, (item, (k, p))) <$> products !! k) items.

Definition item_view (j : OrderItem.t * ProductDoc) : Pushed.t :=
  {| Pushed.productDetails :=
       {| Pushed.id := j.2.1; Pushed.name := Product.name j.2.2 |};
     Pushed.qty := OrderItem.qty j.1 |}.

Definition item_amount (j : OrderItem.t * ProductDoc) : float :=
  op_multiply (OrderItem.qty j.1) (Product.price j.2.2).

(** the document that reaches [$group] for a surviving item of order [k] *)
Definition joined_doc (k : ObjectId) (u : string)
    (j : OrderItem.t * ProductDoc) : Doc.t OrderItem.t ProductDoc :=
  {| Doc._id := k; Doc.userId := u; Doc.items := j.1; Doc.productInfo := j.2 |}.

Definition group_state_of (k : ObjectId)
    (js : list (OrderItem.t * ProductDoc)) : group_state :=
  {| group_key := k;
     group_values := item_amount <$> js;
     group_pushed := item_view <$> js |}.

Definition state_of_order (ps : gmap ObjectId Product.t) (uid : string)
    (kv : ObjectId * Order.t) : option group_state :=
  if decide (Order.userId kv.2 = uid)
  then match surviving_items ps (Order.items kv.2) with
       | [] => None
       | js => Some (group_state_of kv.1 js)
       end
  else None.

(** the grouped order of a stored order: absent when no item survives *)
Definition grouped_order (products : gmap ObjectId Product.t)
    (k : ObjectId) (o : Order.t) : option Grouped.t :=
  match surviving_items products (Order.items o) with
  | [] => None
  | js => Some {| Grouped._id := k;
                  Grouped.total := op_sum (item_amount <$> js);
                  Grouped.items := item_view <$> js |}
  end.

Definition grouped_orders_of (products : gmap ObjectId Product.t)
    (user_id : string) (kvs : list (ObjectId * Order.t)) : list Grouped.t :=
  omap (λ kv, if decide (Order.userId kv.2 = user_id)
              then grouped_order products kv.1 kv.2 else None) kvs.

(** a user's surviving grouped orders, ascending by identity *)
Definition surviving_grouped_orders (d : db) (user_id : string)
    : list Grouped.t :=
  sort_by_id (grouped_orders_of (products d) user_id (map_to_list (orders d))).

(** an order as the listing shows it: its surviving items, each with the
    product as the catalog has it now, and their total *)
Definition order_view (products : gmap ObjectId Product.t)
    (k : ObjectId) (o : Order.t) : models.OrderListDetails.t :=
  let js := surviving_items products (Order.items o) in
  {| models.OrderListDetails.id := bson.str k;
     models.OrderListDetails.items := (to_item_details ∘ item_view) <$> js;
     models.OrderListDetails.total := op_sum (item_amount <$> js) |}.

(** the cursors of a page, from the window and the number of orders
    returned *)
Definition page_of (limit offset : Z) (returned : nat) : models.Pagination.t :=
  {| models.Pagination.next :=
       if bool_decide (Z.of_nat returned = limit)
       then Some (Py.str (offset + limit)) else None;
     models.Pagination.limit := limit;
     models.Pagination.offset := offset;
     models.Pagination.previous :=
       if bool_decide (0 < offset)
       then Some (Py.str (offset - limit)) else None |}.

Definition id_lt (a b : Grouped.t) : Prop :=
  (Grouped._id a < Grouped._id b)%N.

(** *** A client that reads every page

    Pages are requested at offsets [offset], [offset + limit], ... until one
    comes back with fewer than [limit] orders; [None] when a request fails
    or [fuel] requests were not enough. *)
Fixpoint fetch_all (fuel : nat) (d : db) (user_id : string)
    (limit offset : Z) : option (list models.OrderListDetails.t) :=
  match fuel with
  | O => None
  | S fuel' =>
      match get_user_orders d user_id limit offset with
      | inl _ => None
      | inr resp =>
          let page := models.OrderListResponse.data resp in
          if bool_decide (Z.of_nat (length page) < limit)
          then Some page
          else rest ← fetch_all fuel' d user_id limit (offset + limit);
               Some (page ++ rest)
      end
  end.

(** *** Requests served one after the other *)

Inductive request : Type :=
  | POST_orders (inserted_id : ObjectId) (order : models.OrderCreate.t)
  | GET_orders (user_id : string) (limit offset : Z).

Inductive response : Type :=
  | Created (r : Result models.OrderResponse.t)
  | Listed (r : Result models.OrderListResponse.t).

Definition handle (d : db) (rq : request) : response * db :=
  match rq with
  | POST_orders inserted_id order =>
      let '(r, d') := create_order inserted_id d order in (Created r, d')
  | GET_orders user_id limit offset =>
      (Listed (get_user_orders d user_id limit offset), d)
  end.

Fixpoint serve (d : db) (rqs : list request) : list response * db :=
  match rqs with
  | [] => ([], d)
  | rq :: rqs' =>
      let '(r, d') := handle d rq in
      let '(rs, d'') := serve d' rqs' in
      (r :: rs, d'')
  end.

Definition is_read (rq : request) : bool :=
  match rq with
  | GET_orders _ _ _ => true
  | POST_orders _ _ => false
  end.

End handlers.
End orders.

(** ** [app/api/products.py] *)

Module products.
Import database.

Section handlers.
Context {regex : RegexEngine}.

(** The loop of [create_product] over [product.sizes]. *)
Fixpoint check_sizes (sizes : list models.SizeQuantity.t) : Result unit :=
  match sizes with
  | [] => mret ()
  | size_item :: rest =>
      if models.SizeQuantity.quantity size_item <? 0
      then raise (HTTPException 400 "Quantity cannot be negative")
      else check_sizes rest
  end.

(** The checks of [create_product] that precede the insertion. *)
Definition checked_product (product : models.ProductCreate.t) : Result unit :=
  if PrimFloat.leb (models.ProductCreate.price product) 0%float
  then raise (HTTPException 400 "Price must be greater than 0")
  else if bool_decide (models.ProductCreate.sizes product = [])
  then raise (HTTPException 400 "At least one size must be provided")
  else check_sizes (models.ProductCreate.sizes product).

(** [product.model_dump()] *)
Definition model_dump (product : models.ProductCreate.t) : Product.t :=
  {| Product.name := models.ProductCreate.name product;
     Product.price := models.ProductCreate.price product;
     Product.sizes := models.ProductCreate.sizes product |}.

(** The body of [create_product]. [inserted_id] is the identity generated
    for the new document. *)
Definition create_product_body (inserted_id : ObjectId) (d : db)
    (product : models.ProductCreate.t) : Result models.ProductResponse.t * db :=
  match checked_product product with
  | inl e => (inl e, d)
  | inr _ =>
      match insert_one inserted_id (model_dump product) (products d) with
      | None => (raise (HTTPException 500 "Failed to create product"), d)
      | Some products' =>
          (mret {| models.ProductResponse.id := bson.str inserted_id |},
           {| products := products'; orders := orders d |})
      end
  end.

(** [POST /products]: the request body is validated against
    [models.ProductCreate], then the handler body runs. *)
Definition create_product (inserted_id : ObjectId) (d : db)
    (product : models.ProductCreate.t) : Result models.ProductResponse.t * db :=
  if models.ProductCreate.validate product
  then create_product_body inserted_id d product
  else (raise RequestValidationError, d).

(** The [query] dictionary of [list_products]: the pattern under ["name"]
    (with options ["i"]) and the value under ["sizes.size"], each when
    set. *)
Record query := {
  query_name : option string;
  query_size : option string
}.

(** [if name: ...] *)
Definition name_filter (name : option string) : Result (option string) :=
  match name with
  | None => mret None
  | Some name =>
      if Py.not_ name then mret None
      else
        let name := Py.strip name in
        if (100 <? String.length name)%nat
        then raise (HTTPException 400 "Search term too long")
        else mret (Some (Py.re_escape name))
  end.

(** [if size: ...] *)
Definition size_filter (size : option string) : Result (option string) :=
  match size with
  | None => mret None
  | Some size =>
      if Py.not_ size then mret None
      else
        let size := Py.strip size in
        if (20 <? String.length size)%nat
        then raise (HTTPException 400 "Size parameter too long")
        else mret (Some size)
  end.

Definition build_query (name size : option string) : Result query :=
  query_name ← name_filter name;
  query_size ← size_filter size;
  mret {| query_name := query_name; query_size := query_size |}.

(** whether a document of [products] matches the query: the name matches
    the pattern, and some element of [sizes] has the size asked for *)
Definition matches (q : query) (p : Product.t) : bool :=
  match query_name q with
  | None => true
  | Some pattern => regex_search pattern "i" (Product.name p)
  end
  && match query_size q with
     | None => true
     | Some size =>
         existsb (λ s, bool_decide (models.SizeQuantity.size s = size))
                 (Product.sizes p)
     end.

(** [products_collection.find(query, {"_id": 1, "name": 1, "price": 1})
    .skip(offset).limit(limit)] *)
Definition find (d : db) (q : query) (limit offset : Z)
    : list (ObjectId * Product.t) :=
  let docs := filter (λ kv, matches q kv.2 = true) (map_to_list (products d)) in
  let docs := database.skip offset docs in
  database.limit limit docs.

Definition to_list_details (doc : ObjectId * Product.t)
    : models.ProductListDetails.t :=
  {| models.ProductListDetails.id := bson.str doc.1;
     models.ProductListDetails.name := Product.name doc.2;
     models.ProductListDetails.price := Product.price doc.2 |}.

Definition list_products_body (d : db) (name size : option string)
    (limit offset : Z) : Result models.ProductListResponse.t :=
  query ← build_query name size;
  let product_list := to_list_details <$> find d query limit offset in
  let next_offset_str :=
    if bool_decide (Z.of_nat (length product_list) = limit)
    then Some (Py.str (offset + limit)) else None in
  let prev_offset_str :=
    if bool_decide (0 < offset)
    then Some (Py.str (offset - limit)) else None in
  mret {| models.ProductListResponse.data := product_list;
          models.ProductListResponse.page :=
            {| models.Pagination.next := next_offset_str;
               models.Pagination.limit := limit;
               models.Pagination.offset := offset;
               models.Pagination.previous := prev_offset_str |} |}.

(** [GET /products], with [limit: int = Query(10, ge=1)] and
    [offset: int = Query(0, ge=0)] *)
Definition list_products (d : db) (name size : option string)
    (limit offset : Z) : Result models.ProductListResponse.t :=
  if (1 <=? limit) && (0 <=? offset)
  then list_products_body d name size limit offset
  else raise RequestValidationError.

(** what a listing asks of a product, in the words of the request: a name
    that the escaped, trimmed [name] matches whatever the case, and a size
    equal to the trimmed [size]; an absent or empty parameter asks nothing *)
Definition selected (name size : option string) (p : Product.t) : Prop :=
  (∀ n, name = Some n → n ≠ EmptyString →
        regex_search (Py.re_escape (Py.strip n)) "i" (Product.name p) = true)
  ∧ (∀ s, size = Some s → s ≠ EmptyString →
          ∃ sz, sz ∈ Product.sizes p
                ∧ models.SizeQuantity.size sz = Py.strip s).

End handlers.
End products.

(** ** Binary64 arithmetic *)

Definition float_of_int (n : Z) : float :=
  match n with
  | Z0 => 0%float
  | Zpos _ => PrimFloat.of_uint63 (Uint63.of_Z n)
  | Zneg p => PrimFloat.opp (PrimFloat.of_uint63 (Uint63.of_Z (Zpos p)))
  end.

(** The arithmetic of doubles with a left-to-right sum, for integers below
    2^63 in absolute value. *)
#[global] Instance binary64 : Arithmetic := {|
  op_multiply q p := PrimFloat.mul (float_of_int q) p;
  op_sum l := foldl PrimFloat.add 0%float l
|}.

(** ** A regular-expression engine for escaped literals *)

Fixpoint unescape (s : string) : string :=
  match s with
  | String "\"%char (String c s') => String c (unescape s')
  | String c s' => String c (unescape s')
  | EmptyString => EmptyString
  end.

Definition ascii_lower (c : ascii) : ascii :=
  let n := N_of_ascii c in
  if ((65 <=? n) && (n <=? 90))%N then ascii_of_N (n + 32) else c.

Fixpoint lower (s : string) : string :=
  match s with
  | EmptyString => EmptyString
  | String c s' => String (ascii_lower c) (lower s')
  end.

Fixpoint occurs (p s : string) : bool :=
  String.prefix p s
  || match s with
     | EmptyString => false
     | String _ s' => occurs p s'
     end.

(** The patterns that [Py.re_escape] produces, searched without regard to
    the case of ASCII letters. *)
#[global] Instance escaped_literals : RegexEngine := {|
  regex_search pattern _ s := occurs (lower (unescape pattern)) (lower s)
|}.

(** ** The store as the interface builds it *)

Module api.
Import database.

(** how [create_order] stores an item of the request *)
Definition stored_as (i : models.OrderItemCreate.t) (i' : OrderItem.t) : Prop :=
  0 < models.OrderItemCreate.qty i
  ∧ bson.ObjectId_init (models.OrderItemCreate.productId i)
    = Some (OrderItem.productId i')
  ∧ OrderItem.qty i' = models.OrderItemCreate.qty i.

(** the two requests that write *)
Inductive write : Type :=
  | CreateProduct (inserted_id : ObjectId) (product : models.ProductCreate.t)
  | CreateOrder (inserted_id : ObjectId) (order : models.OrderCreate.t).

Definition apply (d : db) (w : write) : db :=
  match w with
  | CreateProduct inserted_id product =>
      (products.create_product inserted_id d product).2
  | CreateOrder inserted_id order =>
      (orders.create_order inserted_id d order).2
  end.

Definition empty : db := {| products := ∅; orders := ∅ |}.

(** the store after the writes [ws], served from the empty store *)
Definition after (ws : list write) : db := foldl apply empty ws.

Definition product_ok (p : Product.t) : Prop :=
  Product.name p ≠ EmptyString
  ∧ PrimFloat.ltb 0%float (Product.price p) = true
  ∧ Product.sizes p ≠ []
  ∧ Forall (λ s, 0 ≤ models.SizeQuantity.quantity s) (Product.sizes p).

Definition order_ok (ps : gmap ObjectId Product.t) (o : Order.t) : Prop :=
  Py.strip (Order.userId o) ≠ EmptyString
  ∧ Order.items o ≠ []
  ∧ Forall (λ it, 0 < OrderItem.qty it
                  ∧ is_Some (ps !! OrderItem.productId it)) (Order.items o)
  ∧ NoDup (OrderItem.productId <$> Order.items o).

Definition consistent (d : db) : Prop :=
  map_Forall (λ _ p, product_ok p) (products d)
  ∧ map_Forall (λ _ o, order_ok (products d) o) (orders d).

End api.

(** ** The error taxonomy of the interface *)

(** malformed or out-of-range input *)
Inductive ValidationError : Raised → Prop :=
  | invalid_request : ValidationError RequestValidationError
  | invalid_no_item :
      ValidationError (HTTPException 400 "Order must contain at least one item")
  | invalid_user :
      ValidationError (HTTPException 400 "User ID cannot be empty")
  | invalid_qty :
      ValidationError (HTTPException 400 "Item quantity must be greater than 0")
  | invalid_product_id s :
      ValidationError (HTTPException 400 ("Invalid product ID: " +:+ s)).

(** an order that references a product the catalog does not have *)
Definition ReferentialError (e : Raised) : Prop :=
  e = HTTPException 400 "One or more products do not exist".

(** ** A small store *)

Module example.
Import database.

Definition P1 : ObjectId := 0x64b7f1a2c3d4e5f601234567%N.
Definition P2 : ObjectId := 0x64b7f1a2c3d4e5f601234568%N.
Definition O1 : ObjectId := 0x64b7f1a2c3d4e5f601239999%N.
Definition O2 : ObjectId := 0x64b7f1a2c3d4e5f60123999a%N.
Definition O3 : ObjectId := 0x64b7f1a2c3d4e5f60123999b%N.

Definition shirt : Product.t :=
  {| Product.name := "shirt"; Product.price := 9.99%float;
     Product.sizes := [ {| models.SizeQuantity.size := "large";
                           models.SizeQuantity.quantity := 4 |} ] |}.

Definition hat : Product.t :=
  {| Product.name := "hat"; Product.price := 5%float;
     Product.sizes := [ {| models.SizeQuantity.size := "small";
                           models.SizeQuantity.quantity := 1 |} ] |}.

Definition item (k : ObjectId) (q : Z) : OrderItem.t :=
  {| OrderItem.productId := k; OrderItem.qty := q |}.

Definition order (u : string) (items : list OrderItem.t) : Order.t :=
  {| Order.userId := u; Order.items := items |}.

(** [O1] references both products, [O2] and [O3] only the hat *)
Definition some_orders : gmap ObjectId Order.t :=
  <[O1 := order "u1" [item P1 2; item P2 1]]>
    (<[O2 := order "u1" [item P2 3]]>
       (<[O3 := order "u2" [item P2 1]]> ∅)).

Definition full : db :=
  {| products := <[P1 := shirt]> (<[P2 := hat]> ∅); orders := some_orders |}.

(** the same store after the hat has been removed from the catalog *)
Definition hat_deleted : db :=
  {| products := <[P1 := shirt]> ∅; orders := some_orders |}.

(** one order of a single item: two shirts *)
Definition single : db :=
  {| products := <[P1 := shirt]> ∅;
     orders := <[O1 := order "u1" [item P1 2]]> ∅ |}.

Definition catalog_only : db :=
  {| products := <[P1 := shirt]> (<[P2 := hat]> ∅); orders := ∅ |}.

Definition request_item (s : string) (q : Z) : models.OrderItemCreate.t :=
  {| models.OrderItemCreate.productId := s; models.OrderItemCreate.qty := q |}.

Definition request (u : string) (items : list models.OrderItemCreate.t)
    : models.OrderCreate.t :=
  {| models.OrderCreate.userId := u; models.OrderCreate.items := items |}.

End example.

(** * Properties *)

(** ** White space and [strip] *)

Lemma lstrip_leading s : Py.leading_whitespace (Py.lstrip s) = false.
Proof.
  induction s as [|c s IH]; simpl; [done|].
  destruct (Py.isspace c) eqn:Hc; [done|].
  unfold Py.leading_whitespace; simpl. by rewrite Hc.
Qed.

Lemma rstrip_trailing s : Py.trailing_whitespace (Py.rstrip s) = false.
Proof.
  induction s as [|c s IH]; simpl; [done|].
  destruct (Py.rstrip s) as [|c' r] eqn:Hr.
  - destruct (Py.isspace c) eqn:Hc; [done|].
    unfold Py.trailing_whitespace; simpl. by rewrite Hc.
  - exact IH.
Qed.

Lemma rstrip_leading s :
  Py.leading_whitespace (Py.rstrip s) = true → Py.leading_whitespace s = true.
Proof.
  destruct s as [|c s]; simpl; [done|].
  destruct (Py.rstrip s) as [|c' r].
  - destruct (Py.isspace c) eqn:Hc; [done|].
    unfold Py.leading_whitespace; simpl. by rewrite Hc.
  - done.
Qed.

Lemma strip_leading s : Py.leading_whitespace (Py.strip s) = false.
Proof.
  unfold Py.strip.
  destruct (Py.leading_whitespace (Py.rstrip (Py.lstrip s))) eqn:E; [|done].
  apply rstrip_leading in E. by rewrite lstrip_leading in E.
Qed.

Lemma strip_trailing s : Py.trailing_whitespace (Py.strip s) = false.
Proof. apply rstrip_trailing. Qed.

Lemma not_empty_iff s : Py.not_ s = true ↔ s = EmptyString.
Proof. by destruct s. Qed.

(** ** [str] of an [ObjectId] is injective *)

Lemma unhex_zfill k s : bson.unhex (bson.zfill k s) = bson.unhex s.
Proof.
  induction k as [|k IH]; simpl; [done|].
  rewrite <- IH. unfold bson.unhex; simpl.
  by destruct (HexadecimalString.NilEmpty.uint_of_string (bson.zfill k s)).
Qed.

Lemma unhex_str oid : bson.unhex (bson.str oid) = Some oid.
Proof.
  unfold bson.str. rewrite unhex_zfill. unfold bson.unhex.
  rewrite HexadecimalString.NilEmpty.usu. simpl.
  by rewrite HexadecimalN.Unsigned.of_to.
Qed.

#[global] Instance bson_str_inj : Inj (=) (=) bson.str.
Proof.
  intros a b E. apply (f_equal bson.unhex) in E.
  rewrite !unhex_str in E. congruence.
Qed.

(** ** The pipeline, order by order *)

Section pipeline_correct.
Import database orders.
Context {arith : Arithmetic}.

Lemma doc_of_kv_of d : doc_of (kv_of d) = d.
Proof. by destruct d as [? ? ? []]. Qed.

Lemma kv_of_doc_of kv : kv_of (doc_of kv) = kv.
Proof. by destruct kv as [? []]. Qed.

(** The join of one order: flatten, look up, drop the items left without a
    product. *)
Lemma join_items {P} ps (d : Doc.t (list OrderItem.t) P) its :
  unwind_productInfo (lookup_products ps (Doc.set_items d <$> its))
  = joined_doc (Doc._id d) (Doc.userId d) <$> surviving_items ps its.
Proof.
  unfold unwind_productInfo, lookup_products, surviving_items.
  induction its as [|it its IH]; [done|].
  rewrite !fmap_cons, bind_cons, IH. simpl.
  by destruct (ps !! OrderItem.productId it).
Qed.

Lemma join_cons ps uid (d : Doc.t (list OrderItem.t) unit) ds :
  unwind_productInfo
    (lookup_products ps (unwind_items (match_userId uid (d :: ds))))
  = (if decide (Doc.userId d = uid)
     then joined_doc (Doc._id d) (Doc.userId d)
            <$> surviving_items ps (Doc.items d)
     else [])
    ++ unwind_productInfo
         (lookup_products ps (unwind_items (match_userId uid ds))).
Proof.
  unfold match_userId. rewrite filter_cons.
  destruct (decide (Doc.userId d = uid)); [|done].
  unfold unwind_items at 1. rewrite bind_cons.
  unfold lookup_products at 1. rewrite fmap_app.
  unfold unwind_productInfo at 1. rewrite bind_app.
  f_equal. apply join_items.
Qed.

(** [$group]: a document whose key is new opens a group at the end. *)
Lemma group_add_fresh d acc :
  Doc._id d ∉ group_key <$> acc →
  group_add d acc
  = acc ++ [ {| group_key := Doc._id d;
                group_values := [sum_operand d];
                group_pushed := [push_operand d] |} ].
Proof.
  induction acc as [|g acc IH]; simpl; [done|].
  intros Hk. apply not_elem_of_cons in Hk as [Hg Hk].
  destruct (decide (group_key g = Doc._id d)); [congruence|].
  by rewrite IH.
Qed.

(** ... and a document of the last group joins it. *)
Lemma group_add_last d g acc :
  group_key g ∉ group_key <$> acc →
  Doc._id d = group_key g →
  group_add d (acc ++ [g])
  = acc ++ [ {| group_key := group_key g;
                group_values := group_values g ++ [sum_operand d];
                group_pushed := group_pushed g ++ [push_operand d] |} ].
Proof.
  intros Hk Hd. induction acc as [|g' acc IH]; simpl.
  - destruct (decide (group_key g = Doc._id d)); [done|congruence].
  - apply not_elem_of_cons in Hk as [Hg Hk].
    destruct (decide (group_key g' = Doc._id d)); [congruence|].
    by rewrite IH.
Qed.

Lemma foldl_group_last u js g acc :
  group_key g ∉ group_key <$> acc →
  foldl group_step (acc ++ [g]) (joined_doc (group_key g) u <$> js)
  = acc ++ [ {| group_key := group_key g;
                group_values := group_values g ++ (item_amount <$> js);
                group_pushed := group_pushed g ++ (item_view <$> js) |} ].
Proof.
  intros Hk. revert g Hk.
  induction js as [|j js IH]; intros g Hk; simpl.
  - rewrite !app_nil_r. by destruct g.
  - unfold group_step at 2. rewrite group_add_last; [|done..].
    rewrite (IH {| group_key := group_key g |}); [|done]. simpl.
    by rewrite <- !app_assoc.
Qed.

Lemma foldl_group_order k u js acc :
  k ∉ group_key <$> acc →
  foldl group_step acc (joined_doc k u <$> js)
  = acc ++ match js with [] => [] | _ => [group_state_of k js] end.
Proof.
  intros Hk. destruct js as [|j js]; simpl; [by rewrite app_nil_r|].
  unfold group_step at 2. rewrite group_add_fresh; [|done]. simpl.
  by rewrite (foldl_group_last u js {| group_key := k |}).
Qed.

Lemma state_of_order_key ps uid kv g :
  state_of_order ps uid kv = Some g → group_key g = kv.1.
Proof.
  unfold state_of_order. destruct (decide _); [|done].
  destruct (surviving_items _ _); [done|]. by intros [= <-].
Qed.

Lemma foldl_group_all ps uid kvs acc :
  NoDup kvs.*1 →
  (∀ k, k ∈ kvs.*1 → k ∉ group_key <$> acc) →
  foldl group_step acc
    (unwind_productInfo
       (lookup_products ps (unwind_items (match_userId uid (doc_of <$> kvs)))))
  = acc ++ omap (state_of_order ps uid) kvs.
Proof.
  revert acc. induction kvs as [|kv kvs IH]; intros acc Hnd Hacc.
  { simpl. by rewrite app_nil_r. }
  rewrite fmap_cons, join_cons, foldl_app. simpl in Hnd |- *.
  apply NoDup_cons in Hnd as [Hkv Hnd].
  assert (kv.1 ∉ group_key <$> acc) as Hfresh by (apply Hacc; left).
  unfold state_of_order at 1.
  destruct (decide (Order.userId kv.2 = uid)) as [Hu|Hu].
  - rewrite foldl_group_order; [|done].
    destruct (surviving_items ps (Order.items kv.2)) as [|j js] eqn:Hjs.
    + rewrite app_nil_r. apply IH; [done|].
      intros k Hk. apply Hacc. by right.
    + rewrite IH; [by rewrite <- app_assoc|done|].
      intros k Hk. rewrite fmap_app. simpl.
      rewrite elem_of_app, list_elem_of_singleton.
      intros [Hin| ->]; [|done].
      revert Hin. apply Hacc. by right.
  - simpl. apply IH; [done|]. intros k Hk. apply Hacc. by right.
Qed.

Lemma group_result_state ps uid kv :
  group_result <$> state_of_order ps uid kv
  = (if decide (Order.userId kv.2 = uid)
     then grouped_order ps kv.1 kv.2 else None).
Proof.
  unfold state_of_order, grouped_order.
  destruct (decide _); [|done].
  by destruct (surviving_items _ _).
Qed.

(** Flatten, join and re-group amount to treating each order on its own. *)
Lemma group_by_id_spec ps uid kvs :
  NoDup kvs.*1 →
  group_by_id
    (unwind_productInfo
       (lookup_products ps (unwind_items (match_userId uid (doc_of <$> kvs)))))
  = grouped_orders_of ps uid kvs.
Proof.
  intros Hnd. unfold group_by_id.
  rewrite foldl_group_all; [|done|intros ? _; simpl; apply not_elem_of_nil].
  simpl. rewrite list_fmap_omap. unfold grouped_orders_of.
  clear Hnd. induction kvs as [|kv kvs IH]; [done|]. simpl.
  rewrite group_result_state.
  destruct (decide _); [destruct (grouped_order _ _ _)|]; [f_equal|..]; exact IH.
Qed.

Lemma pipeline_spec d uid limit offset :
  pipeline d uid limit offset
  = take (Z.to_nat limit)
      (drop (Z.to_nat offset) (surviving_grouped_orders d uid)).
Proof.
  unfold pipeline, pipeline_on, scan, surviving_grouped_orders.
  unfold database.limit, database.skip.
  by rewrite group_by_id_spec by apply NoDup_fst_map_to_list.
Qed.

End pipeline_correct.

(** ** The user's surviving grouped orders *)

#[global] Instance id_le_total : Total database.id_le.
Proof. intros a b. unfold database.id_le. lia. Qed.

#[global] Instance id_le_trans : Transitive database.id_le.
Proof. intros a b c. unfold database.id_le. lia. Qed.

Section grouped_orders.
Import database orders.
Context {arith : Arithmetic}.

Lemma grouped_order_id ps k o g :
  grouped_order ps k o = Some g → Grouped._id g = k.
Proof.
  unfold grouped_order. destruct (surviving_items _ _); [done|].
  by intros [= <-].
Qed.

Lemma grouped_order_Some ps k o g :
  grouped_order ps k o = Some g →
  surviving_items ps (Order.items o) ≠ []
  ∧ to_order_details g = order_view ps k o.
Proof.
  unfold grouped_order, order_view, to_order_details.
  destruct (surviving_items _ _) as [|j js]; [done|].
  intros [= <-]. split; [done|]. simpl. f_equal.
  by rewrite <- list_fmap_compose.
Qed.

Lemma grouped_order_is_Some ps k o :
  surviving_items ps (Order.items o) ≠ [] → is_Some (grouped_order ps k o).
Proof.
  unfold grouped_order. destruct (surviving_items _ _); [done|]. eauto.
Qed.

Lemma grouped_order_None ps k o :
  surviving_items ps (Order.items o) = [] → grouped_order ps k o = None.
Proof. unfold grouped_order. by intros ->. Qed.

(** An item survives exactly when the catalog has its product. *)
Lemma elem_of_surviving_items ps its it pk p :
  (it, (pk, p)) ∈ surviving_items ps its
  ↔ it ∈ its ∧ pk = OrderItem.productId it ∧ ps !! pk = Some p.
Proof.
  unfold surviving_items. rewrite list_elem_of_omap. split.
  - intros (it' & Hin & Heq).
    destruct (ps !! OrderItem.productId it') eqn:E; simplify_eq/=. eauto.
  - intros (Hin & -> & Hp). exists it. by rewrite Hp.
Qed.

Lemma surviving_items_nil ps its :
  surviving_items ps its = []
  ↔ ∀ it, it ∈ its → ps !! OrderItem.productId it = None.
Proof.
  split.
  - intros E it Hin. destruct (ps !! OrderItem.productId it) as [p|] eqn:Hp; [|done].
    assert ((it, (OrderItem.productId it, p)) ∈ surviving_items ps its) as Hs
      by by apply elem_of_surviving_items.
    rewrite E in Hs. by apply elem_of_nil in Hs.
  - intros Hall. destruct (surviving_items ps its) as [|[it [pk p]] js] eqn:E; [done|].
    assert ((it, (pk, p)) ∈ surviving_items ps its) as Hs by (rewrite E; left).
    apply elem_of_surviving_items in Hs as (Hin & -> & Hp).
    by rewrite (Hall it Hin) in Hp.
Qed.

Lemma item_amounts ps its :
  item_amount <$> surviving_items ps its
  = omap (λ it, (λ p, op_multiply (OrderItem.qty it) (Product.price p))
                  <$> ps !! OrderItem.productId it) its.
Proof.
  unfold surviving_items. rewrite list_fmap_omap.
  induction its as [|it its IH]; [done|]. simpl.
  destruct (ps !! OrderItem.productId it); simpl; [f_equal|]; exact IH.
Qed.

Lemma elem_of_grouped_orders_of ps uid kvs g :
  g ∈ grouped_orders_of ps uid kvs
  ↔ ∃ kv, kv ∈ kvs ∧ Order.userId kv.2 = uid
          ∧ grouped_order ps kv.1 kv.2 = Some g.
Proof.
  unfold grouped_orders_of. rewrite list_elem_of_omap.
  split; intros (kv & Hin & Hg); exists kv.
  - by destruct (decide _).
  - destruct Hg as [Hu Hg]. by destruct (decide _).
Qed.

Lemma grouped_orders_of_ids ps uid kvs :
  NoDup kvs.*1 → NoDup (Grouped._id <$> grouped_orders_of ps uid kvs).
Proof.
  induction kvs as [|kv kvs IH]; simpl; [constructor|].
  intros [Hkv Hnd]%NoDup_cons.
  unfold grouped_orders_of. simpl.
  destruct (decide _); [|by apply IH].
  destruct (grouped_order ps kv.1 kv.2) as [g|] eqn:Hg; [|by apply IH].
  rewrite fmap_cons. apply NoDup_cons. split; [|by apply IH].
  rewrite (grouped_order_id _ _ _ _ Hg).
  intros (g' & Hid & Hin)%list_elem_of_fmap.
  apply elem_of_grouped_orders_of in Hin as (kv' & Hin & _ & Hg').
  apply grouped_order_id in Hg'. apply Hkv.
  apply list_elem_of_fmap. exists kv'. split; [congruence|done].
Qed.

Lemma elem_of_surviving_grouped_orders d uid g :
  g ∈ surviving_grouped_orders d uid
  ↔ ∃ k o, orders d !! k = Some o ∧ Order.userId o = uid
           ∧ grouped_order (products d) k o = Some g.
Proof.
  unfold surviving_grouped_orders, sort_by_id.
  rewrite merge_sort_Permutation, elem_of_grouped_orders_of. split.
  - intros ([k o] & Hin%elem_of_map_to_list & Hu & Hg). eauto.
  - intros (k & o & Hin%elem_of_map_to_list & Hu & Hg). by exists (k, o).
Qed.

Lemma surviving_grouped_orders_ids d uid :
  NoDup (Grouped._id <$> surviving_grouped_orders d uid).
Proof.
  unfold surviving_grouped_orders, sort_by_id.
  rewrite merge_sort_Permutation.
  apply grouped_orders_of_ids, NoDup_fst_map_to_list.
Qed.

Lemma strictly_sorted (l : list Grouped.t) :
  StronglySorted id_le l → NoDup (Grouped._id <$> l) → StronglySorted id_lt l.
Proof.
  induction 1 as [|g l Hl IH Hg]; [constructor|].
  rewrite fmap_cons. intros [Hnin Hnd]%NoDup_cons.
  constructor; [by apply IH|].
  rewrite Forall_forall in Hg |- *. intros g' Hin.
  specialize (Hg g' Hin).
  assert (Grouped._id g ≠ Grouped._id g').
  { intros E. apply Hnin. rewrite E. apply list_elem_of_fmap. eauto. }
  unfold id_le, id_lt in *. lia.
Qed.

Lemma surviving_grouped_orders_sorted d uid :
  StronglySorted id_lt (surviving_grouped_orders d uid).
Proof.
  apply strictly_sorted; [|apply surviving_grouped_orders_ids].
  apply StronglySorted_merge_sort; apply _.
Qed.

Lemma StronglySorted_drop {A} (R : relation A) n l :
  StronglySorted R l → StronglySorted R (drop n l).
Proof.
  intros Hl. rewrite <- (take_drop n l) in Hl.
  by apply StronglySorted_app_1_r in Hl.
Qed.

Lemma StronglySorted_take {A} (R : relation A) n l :
  StronglySorted R l → StronglySorted R (take n l).
Proof.
  intros Hl. rewrite <- (take_drop n l) in Hl.
  by apply StronglySorted_app_1_l in Hl.
Qed.

Lemma to_order_details_id_inj g1 g2 :
  models.OrderListDetails.id (to_order_details g1)
  = models.OrderListDetails.id (to_order_details g2) →
  Grouped._id g1 = Grouped._id g2.
Proof. simpl. apply (inj bson.str). Qed.

(** ** The handler as a function of the sorted list *)

Lemma get_user_orders_returns d uid limit offset :
  parameters_ok uid limit offset = true → Py.strip uid ≠ EmptyString →
  get_user_orders d uid limit offset
  = inr {| models.OrderListResponse.data :=
             to_order_details <$> pipeline d (Py.strip uid) limit offset;
           models.OrderListResponse.page :=
             page_of limit offset
               (length (pipeline d (Py.strip uid) limit offset)) |}.
Proof.
  intros Hp Hu. unfold get_user_orders, get_user_orders_body. rewrite Hp.
  destruct (Py.not_ (Py.strip uid)) eqn:E.
  { by apply not_empty_iff in E. }
  by rewrite length_fmap.
Qed.

Lemma get_user_orders_inr d uid limit offset resp :
  get_user_orders d uid limit offset = inr resp →
  parameters_ok uid limit offset = true ∧ Py.strip uid ≠ EmptyString
  ∧ resp = {| models.OrderListResponse.data :=
                to_order_details <$> pipeline d (Py.strip uid) limit offset;
              models.OrderListResponse.page :=
                page_of limit offset
                  (length (pipeline d (Py.strip uid) limit offset)) |}.
Proof.
  intros Hget.
  destruct (parameters_ok uid limit offset) eqn:Hp;
    [|by unfold get_user_orders in Hget; rewrite Hp in Hget].
  destruct (decide (Py.strip uid = EmptyString)) as [E|E].
  { unfold get_user_orders, get_user_orders_body in Hget.
    by rewrite Hp, E in Hget. }
  rewrite get_user_orders_returns in Hget by done. by simplify_eq.
Qed.

Lemma parameters_ok_shift uid limit offset k :
  parameters_ok uid limit offset = true → 0 ≤ k →
  parameters_ok uid limit (offset + k) = true.
Proof.
  unfold parameters_ok. rewrite !andb_true_iff.
  intros [Hrest Ho] Hk. split; [done|]. apply Z.leb_le in Ho. apply Z.leb_le. lia.
Qed.

Lemma parameters_ok_window uid limit offset :
  parameters_ok uid limit offset = true → 1 ≤ limit ≤ 100 ∧ 0 ≤ offset.
Proof. unfold parameters_ok. rewrite !andb_true_iff. lia. Qed.

Lemma elem_of_data d uid limit offset resp v :
  get_user_orders d uid limit offset = inr resp →
  v ∈ models.OrderListResponse.data resp →
  ∃ g k o, v = to_order_details g
           ∧ orders d !! k = Some o
           ∧ Order.userId o = Py.strip uid
           ∧ grouped_order (products d) k o = Some g.
Proof.
  intros (_ & _ & ->)%get_user_orders_inr. simpl.
  intros (g & -> & Hg)%list_elem_of_fmap.
  rewrite pipeline_spec in Hg.
  apply subseteq_take, subseteq_drop in Hg.
  apply elem_of_surviving_grouped_orders in Hg as (k & o & ?). by exists g, k, o.
Qed.

End grouped_orders.

(** ** Pagination *)

Section claims.
Import database orders.

(** C4. For a [user_id] that is non-empty after trimming, the [data] of
    [get_user_orders] is the slice of the user's surviving grouped orders,
    sorted ascending by identity, that skips [offset] entries and takes up
    to [limit]; that list holds exactly the user's orders with a surviving
    item, in strictly ascending order, and so does the page. *)
Theorem page_is_slice `{Arithmetic} d uid limit offset :
  parameters_ok uid limit offset = true →
  Py.strip uid ≠ EmptyString →
  ∃ resp,
    get_user_orders d uid limit offset = inr resp
    ∧ ∃ page, page = take (Z.to_nat limit) (drop (Z.to_nat offset)
                       (surviving_grouped_orders d (Py.strip uid)))
    ∧ models.OrderListResponse.data resp = to_order_details <$> page
    ∧ (∀ g, g ∈ surviving_grouped_orders d (Py.strip uid)
            ↔ ∃ k o, orders d !! k = Some o
                     ∧ Order.userId o = Py.strip uid
                     ∧ grouped_order (products d) k o = Some g)
    ∧ StronglySorted id_lt (surviving_grouped_orders d (Py.strip uid))
    ∧ StronglySorted id_lt page.
Proof.
  intros Hp Hu. eexists. split; [by apply get_user_orders_returns|].
  eexists. split; [done|]. simpl. rewrite pipeline_spec.
  split; [done|]. split; [apply elem_of_surviving_grouped_orders|].
  split; [apply surviving_grouped_orders_sorted|].
  apply StronglySorted_take, StronglySorted_drop,
    surviving_grouped_orders_sorted.
Qed.

Lemma page_is_slice_witness :
  ∃ resp,
    get_user_orders example.full "u1" 1 1 = inr resp
    ∧ models.OrderListDetails.id <$> models.OrderListResponse.data resp
      = ["64b7f1a2c3d4e5f60123999a"].
Proof.
  destruct (page_is_slice example.full "u1" 1 1)
    as (resp & Hget & page & -> & Hdata & _); [reflexivity|discriminate|].
  exists resp. split; [exact Hget|]. rewrite Hdata. reflexivity.
Defined.

(** C5. The [next] cursor of a listing is the decimal string of
    [offset + limit] when the page holds [limit] orders and is absent
    otherwise; it is present on a full page also when no order follows it,
    and the page it then points to is empty and has no [next]. *)
Theorem next_cursor `{Arithmetic} d uid limit offset :
  parameters_ok uid limit offset = true →
  Py.strip uid ≠ EmptyString →
  ∃ resp,
    get_user_orders d uid limit offset = inr resp
    ∧ let returned := length (models.OrderListResponse.data resp) in
      let next := models.Pagination.next (models.OrderListResponse.page resp) in
      (Z.of_nat returned = limit → next = Some (Py.str (offset + limit)))
      ∧ (Z.of_nat returned ≠ limit → next = None)
      ∧ (Z.of_nat (length (surviving_grouped_orders d (Py.strip uid)))
         = offset + limit →
         next = Some (Py.str (offset + limit))
         ∧ ∃ resp',
             get_user_orders d uid limit (offset + limit) = inr resp'
             ∧ models.OrderListResponse.data resp' = []
             ∧ models.Pagination.next (models.OrderListResponse.page resp')
               = None).
Proof.
  intros Hp Hu. pose proof (parameters_ok_window _ _ _ Hp) as Hw.
  eexists. split; [by apply get_user_orders_returns|]. simpl.
  rewrite length_fmap, pipeline_spec.
  split; [by intros E; rewrite bool_decide_eq_true_2|].
  split; [by intros E; rewrite bool_decide_eq_false_2|].
  intros Hall.
  assert (length (take (Z.to_nat limit) (drop (Z.to_nat offset)
            (surviving_grouped_orders d (Py.strip uid))))
          = Z.to_nat limit) as Hlen
    by (rewrite length_take, length_drop; lia).
  split; [rewrite bool_decide_eq_true_2; [done|lia]|].
  eexists. split.
  { apply get_user_orders_returns; [|done]. apply parameters_ok_shift; [done|lia]. }
  simpl. rewrite pipeline_spec, drop_ge by lia.
  rewrite take_nil. split; [done|].
  rewrite bool_decide_eq_false_2; [done|simpl; lia].
Qed.

Lemma next_cursor_witness :
  ∃ resp,
    get_user_orders example.full "u1" 2 0 = inr resp
    ∧ models.Pagination.next (models.OrderListResponse.page resp) = Some "2"
    ∧ ∃ resp',
        get_user_orders example.full "u1" 2 2 = inr resp'
        ∧ models.OrderListResponse.data resp' = [].
Proof.
  destruct (next_cursor example.full "u1" 2 0)
    as (resp & Hget & _ & _ & Hlast); [reflexivity|discriminate|].
  destruct Hlast as (Hnext & resp' & Hget' & Hdata & _); [reflexivity|].
  exists resp. split; [exact Hget|]. split; [exact Hnext|].
  exists resp'. split; [exact Hget'|exact Hdata].
Defined.

(** C6. The [previous] cursor of a listing is the decimal string of
    [offset - limit] when [offset > 0] and is absent when [offset = 0]; the
    difference is not clamped: for [offset = 5] and [limit = 10] it is
    ["-5"]. *)
Theorem previous_cursor `{Arithmetic} d uid limit offset :
  parameters_ok uid limit offset = true →
  Py.strip uid ≠ EmptyString →
  ∃ resp,
    get_user_orders d uid limit offset = inr resp
    ∧ let previous :=
        models.Pagination.previous (models.OrderListResponse.page resp) in
      (0 < offset → previous = Some (Py.str (offset - limit)))
      ∧ (offset = 0 → previous = None)
      ∧ (offset = 5 → limit = 10 → previous = Some "-5").
Proof.
  intros Hp Hu. eexists. split; [by apply get_user_orders_returns|]. simpl.
  split; [by intros E; rewrite bool_decide_eq_true_2|].
  split; [by intros ->|]. by intros -> ->.
Qed.

Lemma previous_cursor_witness :
  ∃ resp,
    get_user_orders example.full "u1" 10 5 = inr resp
    ∧ models.Pagination.previous (models.OrderListResponse.page resp)
      = Some "-5".
Proof.
  destruct (previous_cursor example.full "u1" 10 5)
    as (resp & Hget & _ & _ & Hprev); [reflexivity|discriminate|].
  exists resp. split; [exact Hget|]. by apply Hprev.
Defined.

(** ** Dangling references and totals *)

(** C1. An order of the user is listed with its surviving items only and
    with the total of those items: whenever a page shows it, it shows that
    view; when an item survives, every page covering the order's rank shows
    it; and when every item references a product that no longer exists, no
    page shows it. *)
Theorem dangling_items_dropped `{Arithmetic} d uid k o :
  orders d !! k = Some o →
  Order.userId o = Py.strip uid →
  let js := surviving_items (products d) (Order.items o) in
  (∀ it pk p, (it, (pk, p)) ∈ js
              ↔ it ∈ Order.items o ∧ pk = OrderItem.productId it
                ∧ products d !! pk = Some p)
  ∧ (∀ limit offset resp v,
       get_user_orders d uid limit offset = inr resp →
       v ∈ models.OrderListResponse.data resp →
       models.OrderListDetails.id v = bson.str k →
       js ≠ [] ∧ v = order_view (products d) k o)
  ∧ (js ≠ [] →
     ∃ rank : nat, ∀ limit offset,
       parameters_ok uid limit offset = true →
       Py.strip uid ≠ EmptyString →
       (Z.to_nat offset ≤ rank < Z.to_nat offset + Z.to_nat limit)%nat →
       ∃ resp,
         get_user_orders d uid limit offset = inr resp
         ∧ models.OrderListResponse.data resp !! (rank - Z.to_nat offset)%nat
           = Some (order_view (products d) k o))
  ∧ ((∀ it, it ∈ Order.items o →
            products d !! OrderItem.productId it = None) →
     ∀ limit offset resp v,
       get_user_orders d uid limit offset = inr resp →
       v ∈ models.OrderListResponse.data resp →
       models.OrderListDetails.id v ≠ bson.str k).
Proof.
  intros Hk Hu js.
  assert (∀ limit offset resp v,
            get_user_orders d uid limit offset = inr resp →
            v ∈ models.OrderListResponse.data resp →
            models.OrderListDetails.id v = bson.str k →
            js ≠ [] ∧ v = order_view (products d) k o) as Hshown.
  { intros limit offset resp v Hget Hv Hid.
    destruct (elem_of_data _ _ _ _ _ _ Hget Hv)
      as (g & k' & o' & -> & Hk' & _ & Hg).
    simpl in Hid. apply (inj bson.str) in Hid.
    rewrite (grouped_order_id _ _ _ _ Hg) in Hid. subst k'.
    assert (o' = o) as -> by congruence.
    by apply grouped_order_Some. }
  split; [intros it pk p; apply elem_of_surviving_items|].
  split; [exact Hshown|]. split.
  - intros Hjs.
    destruct (grouped_order_is_Some (products d) k o Hjs) as [g Hg].
    assert (g ∈ surviving_grouped_orders d (Py.strip uid)) as Hin
      by (apply elem_of_surviving_grouped_orders; eauto).
    apply list_elem_of_lookup in Hin as [rank Hrank].
    exists rank. intros limit offset Hp Hne Hr.
    eexists. split; [by apply get_user_orders_returns|]. simpl.
    rewrite list_lookup_fmap, pipeline_spec.
    rewrite lookup_take_lt by lia. rewrite lookup_drop.
    replace (Z.to_nat offset + (rank - Z.to_nat offset))%nat with rank by lia.
    rewrite Hrank. simpl. f_equal. by apply grouped_order_Some.
  - intros Hall limit offset resp v Hget Hv Hid.
    destruct (Hshown _ _ _ _ Hget Hv Hid) as [Hjs _].
    by apply Hjs, surviving_items_nil.
Qed.

Lemma dangling_items_dropped_witness :
  ∃ resp v,
    get_user_orders example.hat_deleted "u1" 10 0 = inr resp
    ∧ models.OrderListResponse.data resp = [v]
    ∧ v = order_view (products example.hat_deleted) example.O1
            (example.order "u1" [example.item example.P1 2;
                                 example.item example.P2 1])
    ∧ length (models.OrderListDetails.items v) = 1%nat.
Proof.
  destruct (dangling_items_dropped example.hat_deleted "u1" example.O1
              (example.order "u1" [example.item example.P1 2;
                                   example.item example.P2 1])
              eq_refl eq_refl) as (_ & Hshown & _ & _).
  eexists _, _. split; [vm_compute; reflexivity|]. split; [reflexivity|].
  split; [|reflexivity].
  refine (proj2 (Hshown 10 0 _ _ _ _ _));
    [vm_compute; reflexivity|left|reflexivity].
Defined.

End claims.

(** C2. The total of a listed order is the sum, in item order, of quantity
    times the price the catalog holds when the listing is read, over the
    items whose product exists; with binary64 arithmetic, an order of one
    item of quantity 2 whose product is priced 9.99 has total 19.98. *)
Theorem total_at_read_time :
  (∀ (arith : Arithmetic) d uid limit offset resp v,
     orders.get_user_orders d uid limit offset = inr resp →
     v ∈ models.OrderListResponse.data resp →
     ∃ k o,
       database.orders d !! k = Some o
       ∧ database.Order.userId o = Py.strip uid
       ∧ models.OrderListDetails.id v = bson.str k
       ∧ models.OrderListDetails.total v
         = op_sum (omap (λ it,
                      (λ p, op_multiply (database.OrderItem.qty it)
                                        (database.Product.price p))
                      <$> database.products d !! database.OrderItem.productId it)
                     (database.Order.items o)))
  ∧ (∀ d uid limit offset resp v k o p prod,
       orders.get_user_orders (arith := binary64) d uid limit offset
       = inr resp →
       v ∈ models.OrderListResponse.data resp →
       models.OrderListDetails.id v = bson.str k →
       database.orders d !! k = Some o →
       database.Order.items o
       = [ {| database.OrderItem.productId := p;
              database.OrderItem.qty := 2 |} ] →
       database.products d !! p = Some prod →
       database.Product.price prod = 9.99%float →
       models.OrderListDetails.total v = 19.98%float).
Proof.
  assert (∀ (arith : Arithmetic) d uid limit offset resp v,
     orders.get_user_orders d uid limit offset = inr resp →
     v ∈ models.OrderListResponse.data resp →
     ∃ k o,
       database.orders d !! k = Some o
       ∧ database.Order.userId o = Py.strip uid
       ∧ models.OrderListDetails.id v = bson.str k
       ∧ models.OrderListDetails.total v
         = op_sum (omap (λ it,
                      (λ p, op_multiply (database.OrderItem.qty it)
                                        (database.Product.price p))
                      <$> database.products d !! database.OrderItem.productId it)
                     (database.Order.items o))) as Hsum.
  { intros arith d uid limit offset resp v Hget Hv.
    destruct (elem_of_data _ _ _ _ _ _ Hget Hv)
      as (g & k & o & -> & Hk & Hu & Hg).
    exists k, o. split; [done|]. split; [done|]. simpl.
    rewrite (grouped_order_id _ _ _ _ Hg). split; [done|].
    rewrite <- item_amounts. unfold orders.grouped_order in Hg.
    destruct (orders.surviving_items _ _); [done|]. by simplify_eq. }
  split; [exact Hsum|].
  intros d uid limit offset resp v k o p prod Hget Hv Hid Hk Hitems Hp Hprice.
  destruct (Hsum _ _ _ _ _ _ _ Hget Hv) as (k' & o' & Hk' & _ & Hid' & ->).
  rewrite Hid in Hid'. apply (inj bson.str) in Hid'. subst k'.
  assert (o' = o) as -> by congruence.
  rewrite Hitems. simpl. rewrite Hp. simpl. rewrite Hprice. reflexivity.
Qed.

Lemma total_at_read_time_witness :
  ∃ resp v,
    orders.get_user_orders example.single "u1" 10 0 = inr resp
    ∧ models.OrderListResponse.data resp = [v]
    ∧ models.OrderListDetails.total v = 19.98%float.
Proof.
  destruct total_at_read_time as [_ Hone].
  eexists _, _. split; [vm_compute; reflexivity|]. split; [reflexivity|].
  refine (Hone example.single "u1" 10 0 _ _ example.O1
            (example.order "u1" [example.item example.P1 2])
            example.P1 example.shirt _ _ _ _ _ _ _);
    [vm_compute; reflexivity|left|reflexivity..].
Defined.

(** ** Order ingestion *)

Section ingestion.
Import database orders.

Lemma validate_nonpositive (items : list models.OrderItemCreate.t) :
  (∃ item, item ∈ items ∧ models.OrderItemCreate.qty item ≤ 0) →
  forallb models.OrderItemCreate.validate items = false.
Proof.
  intros (item & Hin & Hq). induction Hin as [item l|item item' l Hin IH]; simpl.
  - unfold models.OrderItemCreate.validate at 1.
    destruct (Z.ltb_spec 0 (models.OrderItemCreate.qty item)); [lia|done].
  - rewrite IH by done. apply andb_false_r.
Qed.

(** The loop stops at the first item that is refused, and an item of
    quantity zero or less is refused if the loop reaches it. *)
Lemma convert_items_nonpositive (items : list models.OrderItemCreate.t) :
  (∃ item, item ∈ items ∧ models.OrderItemCreate.qty item ≤ 0) →
  ∃ e, convert_items items = inl e ∧ ValidationError e.
Proof.
  intros (item & Hin & Hq). induction Hin as [item l|item item' l Hin IH]; simpl.
  - destruct (Z.leb_spec (models.OrderItemCreate.qty item) 0); [|lia].
    eexists. split; [done|constructor].
  - destruct (models.OrderItemCreate.qty item' <=? 0).
    { eexists. split; [done|constructor]. }
    destruct (bson.ObjectId_init _).
    + destruct (IH Hq) as (e & -> & He). by exists e.
    + eexists. split; [done|constructor].
Qed.

Lemma convert_items_inr items items' :
  convert_items items = inr items' →
  Forall2 (λ i i', 0 < models.OrderItemCreate.qty i
                   ∧ bson.ObjectId_init (models.OrderItemCreate.productId i)
                     = Some (OrderItem.productId i')
                   ∧ OrderItem.qty i' = models.OrderItemCreate.qty i)
          items items'.
Proof.
  revert items'. induction items as [|i items IH]; intros items'; simpl.
  { intros [= <-]. constructor. }
  destruct (Z.leb_spec (models.OrderItemCreate.qty i) 0); [done|].
  destruct (bson.ObjectId_init _) as [k|] eqn:Hk; [|done].
  destruct (convert_items items) as [e|rest]; [done|]. simpl.
  intros [= <-]. constructor; [by rewrite Hk|by apply IH].
Qed.

(** The count of [count_documents] never exceeds the number of identities
    asked for, and falls short of it as soon as one is repeated. *)
Lemma count_documents_repeated {A} ids (coll : gmap ObjectId A) :
  ¬ NoDup ids → count_documents_id_in ids coll ≠ length ids.
Proof.
  intros Hdup Hlen. apply Hdup. unfold count_documents_id_in in Hlen.
  set (found := filter (λ kv : ObjectId * A, kv.1 ∈ ids) (map_to_list coll))
    in Hlen.
  assert (NoDup found.*1) as Hnd.
  { eapply NoDup_fmap_fst.
    - intros k x y [_ Hx]%list_elem_of_filter [_ Hy]%list_elem_of_filter.
      exact (map_to_list_unique coll k x y Hx Hy).
    - apply NoDup_filter, NoDup_map_to_list. }
  assert (found.*1 ⊆+ ids) as Hsub.
  { apply NoDup_submseteq; [done|].
    intros k ([k' x] & -> & Hin%list_elem_of_filter)%list_elem_of_fmap.
    apply Hin. }
  apply submseteq_length_Permutation in Hsub;
    [|by rewrite length_fmap, Hlen].
  by rewrite <- Hsub.
Qed.

(** C9. A request with an item of quantity zero or less is refused with a
    validation error and leaves the store as it was: the request model
    refuses it before the handler body runs, and the body on its own refuses
    it too. *)
Theorem nonpositive_quantity_rejected inserted_id d
    (order : models.OrderCreate.t) :
  (∃ item, item ∈ models.OrderCreate.items order
           ∧ models.OrderItemCreate.qty item ≤ 0) →
  (∃ e, create_order inserted_id d order = (inl e, d) ∧ ValidationError e)
  ∧ (∃ e, create_order_body inserted_id d order = (inl e, d)
          ∧ ValidationError e).
Proof.
  intros Hitem. split.
  - exists RequestValidationError. split; [|constructor].
    unfold create_order, models.OrderCreate.validate.
    by rewrite validate_nonpositive, andb_false_r.
  - unfold create_order_body, checked_items.
    destruct (bool_decide _).
    { eexists. split; [done|constructor]. }
    destruct (Py.not_ _).
    { eexists. split; [done|constructor]. }
    destruct (convert_items_nonpositive _ Hitem) as (e & -> & He).
    by exists e.
Qed.

Lemma nonpositive_quantity_rejected_witness :
  create_order example.O1 example.catalog_only
    (example.request "u1"
       [example.request_item "64b7f1a2c3d4e5f601234567" 0])
  = (inl RequestValidationError, example.catalog_only)
  ∧ create_order_body example.O1 example.catalog_only
      (example.request "u1"
         [example.request_item "64b7f1a2c3d4e5f601234567" 0])
    = (inl (HTTPException 400 "Item quantity must be greater than 0"),
       example.catalog_only).
Proof.
  destruct (nonpositive_quantity_rejected example.O1 example.catalog_only
              (example.request "u1"
                 [example.request_item "64b7f1a2c3d4e5f601234567" 0]))
    as [_ _].
  { eexists. split; [left|]. simpl. lia. }
  split; reflexivity.
Defined.

(** C3 (the code departs from it). A request that passes every validation
    and names the same product in two items is refused with "One or more
    products do not exist", whether or not the catalog has the product:
    the number of products found is compared with the number of items. *)
Theorem repeated_product_rejected inserted_id d
    (order : models.OrderCreate.t) items :
  models.OrderCreate.validate order = true →
  Py.strip (models.OrderCreate.userId order) ≠ EmptyString →
  convert_items (models.OrderCreate.items order) = inr items →
  ¬ NoDup (OrderItem.productId <$> items) →
  create_order inserted_id d order
  = (inl (HTTPException 400 "One or more products do not exist"), d)
  ∧ ReferentialError (HTTPException 400 "One or more products do not exist").
Proof.
  intros Hv Hu Hitems Hdup. split; [|done].
  unfold create_order, create_order_body, checked_items. rewrite Hv.
  rewrite bool_decide_eq_false_2.
  2:{ intros E. rewrite E in Hitems. injection Hitems as <-.
      apply Hdup. constructor. }
  destruct (Py.not_ _) eqn:E; [by apply not_empty_iff in E|].
  rewrite Hitems. simpl.
  rewrite bool_decide_eq_true_2; [done|].
  by apply count_documents_repeated.
Qed.

Lemma repeated_product_rejected_witness :
  database.products example.catalog_only !! example.P1 = Some example.shirt
  ∧ create_order example.O1 example.catalog_only
      (example.request "u1"
         [example.request_item "64b7f1a2c3d4e5f601234567" 1;
          example.request_item "64b7f1a2c3d4e5f601234567" 2])
    = (inl (HTTPException 400 "One or more products do not exist"),
       example.catalog_only).
Proof.
  split; [reflexivity|].
  refine (proj1 (repeated_product_rejected example.O1 example.catalog_only
            (example.request "u1"
               [example.request_item "64b7f1a2c3d4e5f601234567" 1;
                example.request_item "64b7f1a2c3d4e5f601234567" 2])
            [example.item example.P1 1; example.item example.P1 2]
            eq_refl _ eq_refl _)).
  - discriminate.
  - intros Hnd. apply NoDup_cons in Hnd as [Hnin _]. apply Hnin. left.
Defined.

End ingestion.

(** ** User identifiers with outer white space *)

Section padded_user.
Import database orders.

Lemma create_order_inr inserted_id d order r d' :
  create_order inserted_id d order = (inr r, d') →
  ∃ items,
    convert_items (models.OrderCreate.items order) = inr items
    ∧ orders d !! inserted_id = None
    ∧ r = {| models.OrderResponse.id := bson.str inserted_id |}
    ∧ d' = {| products := products d;
              orders := <[inserted_id :=
                           {| Order.userId := models.OrderCreate.userId order;
                              Order.items := items |}]> (orders d) |}.
Proof.
  unfold create_order, create_order_body, checked_items, insert_one.
  destruct (models.OrderCreate.validate order); [|done].
  destruct (bool_decide _); [done|].
  destruct (Py.not_ _); [done|].
  destruct (convert_items _) as [e|items]; [done|]. simpl.
  destruct (bool_decide _); [done|].
  destruct (orders d !! inserted_id) eqn:Hfree; [done|].
  intros [= <- <-]. by exists items.
Qed.

(** C10. [create_order] stores the [userId] as supplied, and
    [get_user_orders] matches the trimmed [user_id]: an order created with
    a [userId] that starts or ends with white space is in no page of any
    listing, for as long as the store holds it. *)
Theorem padded_user_id_never_listed `{Arithmetic} inserted_id d order r d' :
  create_order inserted_id d order = (inr r, d') →
  Py.leading_whitespace (models.OrderCreate.userId order) = true
  ∨ Py.trailing_whitespace (models.OrderCreate.userId order) = true →
  (∃ o, orders d' !! inserted_id = Some o
        ∧ Order.userId o = models.OrderCreate.userId order
        ∧ models.OrderResponse.id r = bson.str inserted_id)
  ∧ ∀ d'' uid limit offset resp v,
      orders d'' !! inserted_id = orders d' !! inserted_id →
      get_user_orders d'' uid limit offset = inr resp →
      v ∈ models.OrderListResponse.data resp →
      models.OrderListDetails.id v ≠ models.OrderResponse.id r.
Proof.
  intros (items & _ & _ & -> & ->)%create_order_inr Hws. simpl.
  rewrite lookup_insert_eq. split; [by eexists|].
  intros d'' uid limit offset resp v Hsame Hget Hv Hid.
  destruct (elem_of_data _ _ _ _ _ _ Hget Hv)
    as (g & k & o & -> & Hk & Hu & Hg).
  simpl in Hid. apply (inj bson.str) in Hid.
  rewrite (grouped_order_id _ _ _ _ Hg) in Hid. subst k.
  rewrite Hsame in Hk. injection Hk as <-. simpl in Hu.
  rewrite Hu, strip_leading, strip_trailing in Hws. by destruct Hws.
Qed.

Lemma padded_user_id_never_listed_witness :
  ∃ r d',
    create_order example.O1 example.catalog_only
      (example.request " u1"
         [example.request_item "64b7f1a2c3d4e5f601234567" 2])
    = (inr r, d')
    ∧ models.OrderResponse.id r = "64b7f1a2c3d4e5f601239999"
    ∧ ∃ resp,
        get_user_orders d' " u1" 10 0 = inr resp
        ∧ Forall (λ v, models.OrderListDetails.id v ≠ models.OrderResponse.id r)
                 (models.OrderListResponse.data resp).
Proof.
  eexists _, _. split; [vm_compute; reflexivity|]. split; [reflexivity|].
  eexists. split; [vm_compute; reflexivity|].
  apply Forall_forall. intros v Hv.
  refine (proj2 (padded_user_id_never_listed example.O1 example.catalog_only
            (example.request " u1"
               [example.request_item "64b7f1a2c3d4e5f601234567" 2])
            _ _ _ _) _ " u1" 10 0 _ v eq_refl _ Hv);
    [vm_compute; reflexivity|left; reflexivity|vm_compute; reflexivity].
Defined.

End padded_user.

(** ** Reading every page *)

Section every_page.
Import database orders.
Context {arith : Arithmetic}.

Lemma length_grouped_orders_of ps uid kvs :
  (length (grouped_orders_of ps uid kvs) ≤ length kvs)%nat.
Proof.
  unfold grouped_orders_of.
  induction kvs as [|kv kvs IH]; [done|].
  change (omap ?f (kv :: kvs))
    with (match f kv with Some g => g :: omap f kvs | None => omap f kvs end).
  simpl length.
  destruct (decide _); [destruct (grouped_order _ _ _)|]; simpl length; lia.
Qed.

Lemma length_surviving_grouped_orders d uid :
  (length (surviving_grouped_orders d uid) ≤ size (orders d))%nat.
Proof.
  unfold surviving_grouped_orders, sort_by_id.
  rewrite merge_sort_Permutation, <- length_map_to_list.
  apply length_grouped_orders_of.
Qed.

(** From any offset on, the client collects the rest of the sorted list. *)
Lemma fetch_all_from d uid limit fuel offset :
  parameters_ok uid limit offset = true →
  Py.strip uid ≠ EmptyString →
  (length (surviving_grouped_orders d (Py.strip uid)) - Z.to_nat offset
   < fuel)%nat →
  fetch_all fuel d uid limit offset
  = Some (to_order_details
            <$> drop (Z.to_nat offset)
                  (surviving_grouped_orders d (Py.strip uid))).
Proof.
  intros Hp Hu. revert offset Hp.
  induction fuel as [|fuel IH]; intros offset Hp Hfuel; [lia|].
  pose proof (parameters_ok_window _ _ _ Hp) as Hw.
  simpl. rewrite get_user_orders_returns by done. simpl.
  rewrite length_fmap, pipeline_spec.
  set (rest := drop (Z.to_nat offset)
                 (surviving_grouped_orders d (Py.strip uid))).
  assert (length rest
          = (length (surviving_grouped_orders d (Py.strip uid))
             - Z.to_nat offset)%nat) as Hrest by apply length_drop.
  rewrite length_take. case_bool_decide as Hshort.
  - by rewrite take_ge by lia.
  - rewrite IH; [|apply parameters_ok_shift; [done|lia]|].
    + simpl. rewrite <- fmap_app. do 2 f_equal.
      rewrite Z2Nat.inj_add by lia. rewrite <- drop_drop.
      apply take_drop.
    + rewrite Z2Nat.inj_add by lia. lia.
Qed.

End every_page.

Section reading_claims.
Import database orders.

(** C7. With the store unchanged, the pages read at offsets [0], [limit],
    [2 * limit], ... until one holds fewer than [limit] orders, put end to
    end, are the user's surviving grouped orders: every one of them, none
    twice, ascending by identity. More requests than there are stored
    orders always suffice. *)
Theorem pagination_complete `{Arithmetic} d uid limit fuel :
  parameters_ok uid limit 0 = true →
  Py.strip uid ≠ EmptyString →
  (size (orders d) < fuel)%nat →
  ∃ pages,
    fetch_all fuel d uid limit 0 = Some pages
    ∧ pages = to_order_details <$> surviving_grouped_orders d (Py.strip uid)
    ∧ (∀ v, v ∈ pages
            ↔ ∃ k o, orders d !! k = Some o
                     ∧ Order.userId o = Py.strip uid
                     ∧ surviving_items (products d) (Order.items o) ≠ []
                     ∧ v = order_view (products d) k o)
    ∧ NoDup (models.OrderListDetails.id <$> pages)
    ∧ StronglySorted id_lt (surviving_grouped_orders d (Py.strip uid)).
Proof.
  intros Hp Hu Hfuel. eexists. split.
  { rewrite fetch_all_from; [done..|].
    pose proof (length_surviving_grouped_orders d (Py.strip uid)). lia. }
  simpl. split; [done|]. split; [|split].
  - intros v. rewrite list_elem_of_fmap. split.
    + intros (g & -> & (k & o & Hk & Ho & Hg)%elem_of_surviving_grouped_orders).
      exists k, o. apply grouped_order_Some in Hg as [Hjs Hview]. eauto.
    + intros (k & o & Hk & Ho & Hjs & ->).
      destruct (grouped_order_is_Some (products d) k o Hjs) as [g Hg].
      exists g. split; [symmetry; by apply grouped_order_Some|].
      apply elem_of_surviving_grouped_orders. eauto.
  - rewrite <- list_fmap_compose.
    change (models.OrderListDetails.id ∘ to_order_details)
      with (bson.str ∘ Grouped._id).
    rewrite list_fmap_compose. apply NoDup_fmap; [apply _|].
    apply surviving_grouped_orders_ids.
  - apply surviving_grouped_orders_sorted.
Qed.

Lemma pagination_complete_witness :
  ∃ pages,
    fetch_all 4 example.full "u1" 1 0 = Some pages
    ∧ models.OrderListDetails.id <$> pages
      = ["64b7f1a2c3d4e5f601239999"; "64b7f1a2c3d4e5f60123999a"].
Proof.
  destruct (pagination_complete example.full "u1" 1 4)
    as (pages & Hfetch & -> & _); [reflexivity|discriminate|vm_compute; lia|].
  eexists. split; [exact Hfetch|]. vm_compute. reflexivity.
Defined.

End reading_claims.

(** ** Repeated listings *)

Section repeated.
Import database orders.
Context {arith : Arithmetic}.

Lemma serve_app d rqs1 rqs2 :
  serve d (rqs1 ++ rqs2)
  = ((serve d rqs1).1 ++ (serve (serve d rqs1).2 rqs2).1,
     (serve (serve d rqs1).2 rqs2).2).
Proof.
  revert d. induction rqs1 as [|rq rqs1 IH]; intros d; simpl.
  { by destruct (serve d rqs2). }
  destruct (handle d rq) as [r d1]. rewrite IH.
  destruct (serve d1 rqs1) as [rs1 d2]. simpl.
  by destruct (serve d2 rqs2).
Qed.

(** A listing leaves the store as it was. *)
Lemma serve_reads d rqs :
  Forall (λ rq, is_read rq = true) rqs → (serve d rqs).2 = d.
Proof.
  induction 1 as [|rq rqs Hrq _ IH]; simpl; [done|].
  destruct rq as [|uid limit offset]; [done|]. simpl.
  by destruct (serve d rqs).
Qed.

Lemma NoDup_fmap_eq {A B} (f : A → B) (l : list A) x y :
  NoDup (f <$> l) → x ∈ l → y ∈ l → f x = f y → x = y.
Proof.
  induction l as [|z l IH]; [by intros _ ?%elem_of_nil|].
  rewrite fmap_cons. intros [Hz Hnd]%NoDup_cons Hx Hy E.
  apply elem_of_cons in Hx as [->|Hx]; apply elem_of_cons in Hy as [->|Hy].
  - done.
  - destruct Hz. rewrite E. by apply list_elem_of_fmap_2.
  - destruct Hz. rewrite <- E. by apply list_elem_of_fmap_2.
  - by apply IH.
Qed.

(** Sorting by identity forgets the order in which the groups came. *)
Lemma sort_by_id_Permutation l1 l2 :
  l1 ≡ₚ l2 → NoDup (Grouped._id <$> l2) → sort_by_id l1 = sort_by_id l2.
Proof.
  intros Hperm Hnd. unfold sort_by_id.
  apply (StronglySorted_unique_strong id_le).
  - intros x1 x2 Hx1 Hx2 H12 H21.
    rewrite merge_sort_Permutation in Hx1, Hx2. rewrite Hperm in Hx1.
    apply (NoDup_fmap_eq Grouped._id l2); [done..|].
    unfold id_le in *. lia.
  - apply StronglySorted_merge_sort; apply _.
  - apply StronglySorted_merge_sort; apply _.
  - by rewrite !merge_sort_Permutation.
Qed.

(** The pipeline gives the same documents in whatever order the store
    hands over the collection. *)
Lemma pipeline_on_Permutation d docs uid limit offset :
  docs ≡ₚ scan (orders d) →
  pipeline_on docs (products d) uid limit offset
  = pipeline d uid limit offset.
Proof.
  intros Hperm.
  assert (docs = doc_of <$> (kv_of <$> docs)) as Hdocs.
  { rewrite <- list_fmap_compose. rewrite <- (list_fmap_id docs) at 1.
    apply list_fmap_ext. intros _ doc _. symmetry. apply doc_of_kv_of. }
  assert (kv_of <$> scan (orders d) = map_to_list (orders d)) as Hscan.
  { unfold scan. rewrite <- list_fmap_compose.
    rewrite <- (list_fmap_id (map_to_list (orders d))) at 2.
    apply list_fmap_ext. intros _ kv _. apply kv_of_doc_of. }
  assert (kv_of <$> docs ≡ₚ map_to_list (orders d)) as Hkvs
    by (by rewrite Hperm, Hscan).
  unfold pipeline, pipeline_on, scan. rewrite Hdocs.
  rewrite !group_by_id_spec.
  - f_equal. f_equal. apply sort_by_id_Permutation.
    + unfold grouped_orders_of. by rewrite Hkvs.
    + apply grouped_orders_of_ids, NoDup_fst_map_to_list.
  - apply NoDup_fst_map_to_list.
  - rewrite Hkvs. apply NoDup_fst_map_to_list.
Qed.

End repeated.

Section repeated_claims.
Import database orders.

(** C8. Two listings with the same arguments, with nothing but listings
    served in between, get the same response, and the store is as before;
    the response does not depend on the order in which the store hands
    over the documents of [orders]. *)
Theorem listing_repeatable `{Arithmetic} d uid limit offset between :
  Forall (λ rq, is_read rq = true) between →
  (∃ r rs,
     serve d (GET_orders uid limit offset
                :: between ++ [GET_orders uid limit offset])
     = (Listed r :: rs ++ [Listed r], d)
     ∧ r = get_user_orders d uid limit offset)
  ∧ ∀ docs user_id,
      docs ≡ₚ scan (orders d) →
      pipeline_on docs (products d) user_id limit offset
      = pipeline d user_id limit offset.
Proof.
  intros Hreads. split; [|intros; by apply pipeline_on_Permutation].
  exists (get_user_orders d uid limit offset), (serve d between).1.
  split; [|done]. simpl. rewrite serve_app, serve_reads by done. simpl.
  by destruct (serve d between).
Qed.

Lemma listing_repeatable_witness :
  ∃ r rs,
    serve example.full
      [GET_orders "u1" 1 1; GET_orders "u2" 10 0; GET_orders "u1" 1 1]
    = (Listed r :: rs ++ [Listed r], example.full)
    ∧ length rs = 1%nat.
Proof.
  destruct (listing_repeatable example.full "u1" 1 1 [GET_orders "u2" 10 0])
    as [(r & rs & Hserve & _) _].
  { by repeat constructor. }
  exists r, rs. split; [exact Hserve|].
  apply (f_equal (λ x, length x.1)) in Hserve. simpl in Hserve.
  rewrite length_app in Hserve. simpl in Hserve. lia.
Defined.

End repeated_claims.

(** * Further properties of the handlers *)

(** ** What [create_order] accepts and what it writes *)

Section create_order_outcomes.
Import database orders.

Lemma convert_items_stored items items' :
  convert_items items = inr items' ↔ Forall2 api.stored_as items items'.
Proof.
  split; [apply convert_items_inr|].
  induction 1 as [|i i' items items' (Hq & Hk & Hq') _ IH]; [done|]. simpl.
  destruct (Z.leb_spec (models.OrderItemCreate.qty i) 0); [lia|].
  rewrite Hk, IH. simpl. do 2 f_equal. destruct i'. simpl in *. by subst.
Qed.


(** [count_documents] reports as many documents as identities were asked
    for exactly when no identity is repeated and each one is stored. *)
Lemma count_documents_all_found {A} ids (coll : gmap ObjectId A) :
  count_documents_id_in ids coll = length ids
  ↔ NoDup ids ∧ ∀ k, k ∈ ids → is_Some (coll !! k).
Proof.
  unfold count_documents_id_in.
  set (found := filter (λ kv : ObjectId * A, kv.1 ∈ ids) (map_to_list coll)).
  assert (NoDup found.*1) as Hnd.
  { eapply NoDup_fmap_fst.
    - intros k x y [_ Hx]%list_elem_of_filter [_ Hy]%list_elem_of_filter.
      exact (map_to_list_unique coll k x y Hx Hy).
    - apply NoDup_filter, NoDup_map_to_list. }
  assert (∀ k, k ∈ found.*1 ↔ k ∈ ids ∧ is_Some (coll !! k)) as Hfound.
  { intros k. rewrite list_elem_of_fmap. split.
    - intros ([k' x] & -> & [Hin Hx%elem_of_map_to_list]%list_elem_of_filter).
      split; [done|]. by exists x.
    - intros [Hin [x Hx]]. exists (k, x). split; [done|].
      apply list_elem_of_filter. split; [done|]. by apply elem_of_map_to_list. }
  rewrite <- (length_fmap fst found). split.
  - intros Hlen.
    assert (found.*1 ≡ₚ ids) as Hperm.
    { apply submseteq_length_Permutation; [|by rewrite Hlen].
      apply NoDup_submseteq; [done|]. intros k Hk. by apply Hfound. }
    split; [by rewrite <- Hperm|].
    intros k Hk. rewrite <- Hperm in Hk. by apply Hfound.
  - intros [Hids Hall]. apply Permutation_length.
    apply NoDup_Permutation; [done..|].
    intros k. rewrite Hfound. split; [by intros [? _]|]. intros Hk.
    split; [done|]. by apply Hall.
Qed.

Lemma checked_items_inr d (order : models.OrderCreate.t) items :
  checked_items d order = inr items
  ↔ models.OrderCreate.items order ≠ []
    ∧ Py.strip (models.OrderCreate.userId order) ≠ EmptyString
    ∧ Forall2 api.stored_as (models.OrderCreate.items order) items
    ∧ NoDup (OrderItem.productId <$> items)
    ∧ ∀ k, k ∈ OrderItem.productId <$> items → is_Some (products d !! k).
Proof.
  unfold checked_items. rewrite <- convert_items_stored.
  case_bool_decide as Hnil; [split; [done|]; by intros [? _]|].
  destruct (Py.not_ _) eqn:Hu.
  { apply not_empty_iff in Hu. split; [done|]. by intros (_ & ? & _). }
  assert (Py.strip (models.OrderCreate.userId order) ≠ EmptyString)
    by (intros E%not_empty_iff; congruence).
  destruct (convert_items _) as [e|items']; simpl;
    [split; [done|]; by intros (_ & _ & ? & _)|].
  case_bool_decide as Hcount.
  - split; [done|]. intros (_ & _ & [= <-] & Hnd & Hall).
    destruct Hcount. by apply count_documents_all_found.
  - apply count_documents_all_found in Hcount.
    split; [intros [= <-]; tauto|]. by intros (_ & _ & [= <-] & _).
Qed.


(** X2. Whatever [create_order] answers, the catalog is as before; when it
    raises, so is [orders]; when it returns, [orders] has gained one
    document, under the generated identity, which was free, holding the
    [userId] as supplied and the items in request order, and every other
    order is as before. *)
Theorem create_order_effect inserted_id d (order : models.OrderCreate.t) r d' :
  create_order inserted_id d order = (r, d') →
  products d' = products d
  ∧ match r with
    | inl _ => d' = d
    | inr resp =>
        models.OrderResponse.id resp = bson.str inserted_id
        ∧ orders d !! inserted_id = None
        ∧ (∀ k, k ≠ inserted_id → orders d' !! k = orders d !! k)
        ∧ ∃ items,
            Forall2 api.stored_as (models.OrderCreate.items order) items
            ∧ orders d' !! inserted_id
              = Some {| Order.userId := models.OrderCreate.userId order;
                        Order.items := items |}
    end.
Proof.
  destruct r as [e|resp].
  - unfold create_order, create_order_body.
    destruct (models.OrderCreate.validate order); [|by intros [= _ <-]].
    destruct (checked_items d order); [by intros [= _ <-]|].
    destruct (insert_one _ _ _); [done|by intros [= _ <-]].
  - intros (items & Hitems & Hfree & -> & ->)%create_order_inr. simpl.
    split; [done|]. split; [done|]. split; [done|].
    split; [intros k Hk; by rewrite lookup_insert_ne|].
    exists items. split; [by apply convert_items_stored|].
    by rewrite lookup_insert_eq.
Qed.

Lemma create_order_effect_witness :
  ∃ r d',
    create_order example.O1 example.catalog_only
      (example.request "u1"
         [example.request_item "64B7F1A2C3D4E5F601234567" 2])
    = (inr r, d')
    ∧ products d' = products example.catalog_only
    ∧ orders d' !! example.O1
      = Some (example.order "u1" [example.item example.P1 2]).
Proof.
  eexists _, _. split; [vm_compute; reflexivity|].
  destruct (create_order_effect example.O1 example.catalog_only
              (example.request "u1"
                 [example.request_item "64B7F1A2C3D4E5F601234567" 2])
              _ _ eq_refl) as (Hproducts & _).
  split; [exact Hproducts|]. vm_compute. reflexivity.
Defined.

(** X3. A request that passes every validation and references a product
    the catalog does not have is refused with "One or more products do not
    exist", and nothing is written. *)
Theorem missing_product_rejected inserted_id d
    (order : models.OrderCreate.t) items :
  models.OrderCreate.validate order = true →
  Py.strip (models.OrderCreate.userId order) ≠ EmptyString →
  Forall2 api.stored_as (models.OrderCreate.items order) items →
  (∃ it, it ∈ items ∧ products d !! OrderItem.productId it = None) →
  create_order inserted_id d order
  = (inl (HTTPException 400 "One or more products do not exist"), d).
Proof.
  intros Hv Hu Hitems%convert_items_stored (it & Hin & Hit).
  unfold create_order, create_order_body, checked_items. rewrite Hv.
  rewrite bool_decide_eq_false_2.
  2:{ intros E. rewrite E in Hitems. injection Hitems as <-.
      by apply elem_of_nil in Hin. }
  destruct (Py.not_ _) eqn:E; [by apply not_empty_iff in E|].
  rewrite Hitems. simpl. rewrite bool_decide_eq_true_2; [done|].
  intros [_ Hall]%count_documents_all_found.
  destruct (Hall (OrderItem.productId it)) as [p Hp]; [|congruence].
  by apply list_elem_of_fmap_2.
Qed.

Lemma missing_product_rejected_witness :
  create_order example.O1 example.catalog_only
    (example.request "u1"
       [example.request_item "64b7f1a2c3d4e5f601234567" 1;
        example.request_item "64b7f1a2c3d4e5f6012345ff" 1])
  = (inl (HTTPException 400 "One or more products do not exist"),
     example.catalog_only)
  ∧ products example.catalog_only !! 0x64b7f1a2c3d4e5f6012345ff%N = None.
Proof.
  split; [|reflexivity].
  refine (missing_product_rejected example.O1 example.catalog_only
            (example.request "u1"
               [example.request_item "64b7f1a2c3d4e5f601234567" 1;
                example.request_item "64b7f1a2c3d4e5f6012345ff" 1])
            [example.item example.P1 1;
             example.item 0x64b7f1a2c3d4e5f6012345ff%N 1]
            eq_refl _ _ _).
  - discriminate.
  - repeat constructor.
  - eexists. split; [right; left|reflexivity].
Defined.



End create_order_outcomes.

(** ** More on [strip] *)

Lemma lstrip_id s : Py.leading_whitespace s = false → Py.lstrip s = s.
Proof.
  destruct s as [|c s]; [done|]. unfold Py.leading_whitespace. simpl.
  by intros ->.
Qed.

Lemma rstrip_id s : Py.trailing_whitespace s = false → Py.rstrip s = s.
Proof.
  induction s as [|c s IH]; [done|].
  unfold Py.trailing_whitespace in *. simpl.
  destruct s as [|c' s]; [by intros ->|].
  intros Hs. by rewrite (IH Hs).
Qed.

Lemma strip_idemp s : Py.strip (Py.strip s) = Py.strip s.
Proof.
  unfold Py.strip at 1.
  rewrite lstrip_id by apply strip_leading.
  apply rstrip_id, strip_trailing.
Qed.

Lemma length_lstrip s : (String.length (Py.lstrip s) ≤ String.length s)%nat.
Proof.
  induction s as [|c s IH]; simpl; [done|].
  destruct (Py.isspace c); simpl; lia.
Qed.

Lemma length_rstrip s : (String.length (Py.rstrip s) ≤ String.length s)%nat.
Proof.
  induction s as [|c s IH]; simpl; [done|].
  destruct (Py.rstrip s); [destruct (Py.isspace c)|]; simpl in *; lia.
Qed.

Lemma length_strip s : (String.length (Py.strip s) ≤ String.length s)%nat.
Proof.
  unfold Py.strip. pose proof (length_rstrip (Py.lstrip s)).
  pose proof (length_lstrip s). lia.
Qed.

(** ** Listings: outcomes, trimmed identifiers, orders just created *)

Section listing_more.
Import database orders.
Context {arith : Arithmetic}.

Lemma parameters_ok_iff uid limit offset :
  parameters_ok uid limit offset = true
  ↔ (1 ≤ String.length uid ≤ 100)%nat ∧ 1 ≤ limit ≤ 100 ∧ 0 ≤ offset.
Proof.
  unfold parameters_ok. rewrite !andb_true_iff.
  rewrite !Nat.leb_le, !Z.leb_le. lia.
Qed.

Lemma get_user_orders_blank d uid limit offset :
  parameters_ok uid limit offset = true → Py.strip uid = EmptyString →
  get_user_orders d uid limit offset
  = inl (HTTPException 400 "User ID cannot be empty").
Proof.
  intros Hp Hu. unfold get_user_orders, get_user_orders_body.
  by rewrite Hp, Hu.
Qed.

(** An order of the user with a surviving item sits at some rank of the
    sorted list, and every window over that rank shows it. *)
Lemma listed_at_rank d uid k o :
  orders d !! k = Some o →
  Order.userId o = Py.strip uid →
  surviving_items (products d) (Order.items o) ≠ [] →
  ∃ rank : nat, ∀ limit offset,
    parameters_ok uid limit offset = true →
    Py.strip uid ≠ EmptyString →
    (Z.to_nat offset ≤ rank < Z.to_nat offset + Z.to_nat limit)%nat →
    ∃ resp,
      get_user_orders d uid limit offset = inr resp
      ∧ models.OrderListResponse.data resp !! (rank - Z.to_nat offset)%nat
        = Some (order_view (products d) k o).
Proof.
  intros Hk Hu Hjs.
  destruct (grouped_order_is_Some (products d) k o Hjs) as [g Hg].
  assert (g ∈ surviving_grouped_orders d (Py.strip uid)) as Hin
    by (apply elem_of_surviving_grouped_orders; eauto).
  apply list_elem_of_lookup in Hin as [rank Hrank].
  exists rank. intros limit offset Hp Hne Hr.
  eexists. split; [by apply get_user_orders_returns|]. simpl.
  rewrite list_lookup_fmap, pipeline_spec.
  rewrite lookup_take_lt by lia. rewrite lookup_drop.
  replace (Z.to_nat offset + (rank - Z.to_nat offset))%nat with rank by lia.
  rewrite Hrank. simpl. f_equal. by apply grouped_order_Some.
Qed.

Lemma Forall2_compose {A B C} (P : A → B → Prop) (Q : B → C → Prop)
    (R : A → C → Prop) l k m :
  (∀ x y z, P x y → Q y z → R x z) →
  Forall2 P l k → Forall2 Q k m → Forall2 R l m.
Proof.
  intros HR Hlk. revert m.
  induction Hlk as [|x y l k Hxy _ IH]; intros m Hkm; inv Hkm;
    constructor; eauto.
Qed.

(** When the catalog has the product of every item, every item survives. *)
Lemma surviving_items_all ps its :
  (∀ k, k ∈ OrderItem.productId <$> its → is_Some (ps !! k)) →
  Forall2 (λ it j, j.1 = it ∧ j.2.1 = OrderItem.productId it
                   ∧ ps !! OrderItem.productId it = Some j.2.2)
          its (surviving_items ps its).
Proof.
  unfold surviving_items. induction its as [|it its IH]; intros Hall.
  { constructor. }
  destruct (Hall (OrderItem.productId it)) as [p Hp]; [rewrite fmap_cons; left|].
  simpl. rewrite Hp. simpl. constructor; [done|].
  apply IH. intros k Hk. apply Hall. rewrite fmap_cons. by right.
Qed.

Lemma create_order_returns inserted_id d order r d' :
  create_order inserted_id d order = (inr r, d') →
  ∃ items,
    checked_items d order = inr items
    ∧ orders d !! inserted_id = None
    ∧ r = {| models.OrderResponse.id := bson.str inserted_id |}
    ∧ d' = {| products := products d;
              orders := <[inserted_id :=
                           {| Order.userId := models.OrderCreate.userId order;
                              Order.items := items |}]> (orders d) |}.
Proof.
  unfold create_order, create_order_body, insert_one.
  destruct (models.OrderCreate.validate order); [|done].
  destruct (checked_items d order) as [e|items]; [done|].
  destruct (orders d !! inserted_id) eqn:Hfree; [done|].
  intros [= <- <-]. by exists items.
Qed.

(** The grouped orders of a user are those of the store before, when the
    order that was added belongs to somebody else. *)
Lemma surviving_grouped_orders_insert_other ps os k o uid :
  os !! k = None → Order.userId o ≠ uid →
  surviving_grouped_orders {| products := ps; orders := <[k := o]> os |} uid
  = surviving_grouped_orders {| products := ps; orders := os |} uid.
Proof.
  intros Hfree Hu. unfold surviving_grouped_orders. simpl.
  apply sort_by_id_Permutation.
  - unfold grouped_orders_of.
    rewrite (map_to_list_insert os k o Hfree). simpl.
    by destruct (decide (Order.userId o = uid)).
  - apply grouped_orders_of_ids, NoDup_fst_map_to_list.
Qed.

Lemma get_user_orders_ext d1 d2 uid limit offset :
  surviving_grouped_orders d1 (Py.strip uid)
  = surviving_grouped_orders d2 (Py.strip uid) →
  get_user_orders d1 uid limit offset = get_user_orders d2 uid limit offset.
Proof.
  intros E. unfold get_user_orders, get_user_orders_body.
  by rewrite !pipeline_spec, E.
Qed.

End listing_more.

Section listing_extras.
Import database orders.

(** X5. [get_user_orders] raises a request validation error when a declared
    constraint fails ([user_id] of 1 to 100 characters, [limit] from 1 to
    100, [offset] at least 0), raises 400 "User ID cannot be empty" when the
    [user_id] is all white space, and otherwise returns a page that echoes
    [limit] and [offset] and holds [min limit (n - offset)] orders, [n]
    being the number of the user's orders with a surviving item. *)
Theorem get_user_orders_outcome `{Arithmetic} d uid limit offset :
  match get_user_orders d uid limit offset with
  | inl e =>
      (e = RequestValidationError
       ∧ ¬ ((1 ≤ String.length uid ≤ 100)%nat ∧ 1 ≤ limit ≤ 100 ∧ 0 ≤ offset))
      ∨ (e = HTTPException 400 "User ID cannot be empty"
         ∧ (1 ≤ String.length uid ≤ 100)%nat ∧ 1 ≤ limit ≤ 100 ∧ 0 ≤ offset
         ∧ Py.strip uid = EmptyString)
  | inr resp =>
      (1 ≤ String.length uid ≤ 100)%nat ∧ 1 ≤ limit ≤ 100 ∧ 0 ≤ offset
      ∧ Py.strip uid ≠ EmptyString
      ∧ models.Pagination.limit (models.OrderListResponse.page resp) = limit
      ∧ models.Pagination.offset (models.OrderListResponse.page resp) = offset
      ∧ length (models.OrderListResponse.data resp)
        = (Z.to_nat limit
           `min` (length (surviving_grouped_orders d (Py.strip uid))
                  - Z.to_nat offset))%nat
  end.
Proof.
  destruct (parameters_ok uid limit offset) eqn:Hp.
  - pose proof (proj1 (parameters_ok_iff _ _ _) Hp) as Hok.
    destruct (decide (Py.strip uid = EmptyString)) as [Hu|Hu].
    + rewrite get_user_orders_blank by done. right. tauto.
    + rewrite get_user_orders_returns by done. simpl.
      rewrite length_fmap, pipeline_spec, length_take, length_drop. tauto.
  - unfold get_user_orders. rewrite Hp. left. split; [done|].
    intros Hok%parameters_ok_iff. congruence.
Qed.

(** X6. White space around the [user_id] of a listing is ignored: a
    [user_id] of at most 100 characters that is not all white space gets
    the response that its trimmed form gets. *)
Theorem user_id_is_trimmed `{Arithmetic} d uid limit offset :
  (String.length uid ≤ 100)%nat →
  Py.strip uid ≠ EmptyString →
  get_user_orders d uid limit offset
  = get_user_orders d (Py.strip uid) limit offset.
Proof.
  intros Hlen Hu.
  assert (parameters_ok (Py.strip uid) limit offset
          = parameters_ok uid limit offset) as Hp.
  { pose proof (length_strip uid).
    assert (1 ≤ String.length (Py.strip uid))%nat
      by (destruct (Py.strip uid); [done|simpl; lia]).
    unfold parameters_ok.
    rewrite !(proj2 (Nat.leb_le _ _)) by lia. done. }
  unfold get_user_orders, get_user_orders_body.
  by rewrite Hp, strip_idemp.
Qed.

Lemma user_id_is_trimmed_witness :
  get_user_orders example.full "  u1 " 10 0
  = get_user_orders example.full "u1" 10 0.
Proof.
  refine (user_id_is_trimmed example.full "  u1 " 10 0 _ _).
  - vm_compute. lia.
  - discriminate.
Defined.

(** X7. An order that [create_order] has stored for a [userId] without
    outer white space is listed for that user: the order sits at some rank
    of the listing, every window over that rank shows it under the identity
    [create_order] returned, with one entry per item of the request, in
    request order, each with the requested quantity and the identity and
    name of its product, and the total adds quantity times price over all
    of them. *)
Theorem created_order_is_listed `{Arithmetic} inserted_id d
    (order : models.OrderCreate.t) r d' :
  create_order inserted_id d order = (inr r, d') →
  Py.strip (models.OrderCreate.userId order) = models.OrderCreate.userId order →
  (String.length (models.OrderCreate.userId order) ≤ 100)%nat →
  ∃ (rank : nat) v amounts,
    models.OrderListDetails.id v = models.OrderResponse.id r
    ∧ Forall2 (λ i vi,
         models.OrderItemDetails.qty vi = models.OrderItemCreate.qty i
         ∧ ∃ k p,
             bson.ObjectId_init (models.OrderItemCreate.productId i) = Some k
             ∧ products d !! k = Some p
             ∧ models.OrderItemDetails.productDetails vi
               = {| models.ProductDetails.id := bson.str k;
                    models.ProductDetails.name := Product.name p |})
         (models.OrderCreate.items order) (models.OrderListDetails.items v)
    ∧ Forall2 (λ i a,
         ∃ k p,
           bson.ObjectId_init (models.OrderItemCreate.productId i) = Some k
           ∧ products d !! k = Some p
           ∧ a = op_multiply (models.OrderItemCreate.qty i) (Product.price p))
         (models.OrderCreate.items order) amounts
    ∧ models.OrderListDetails.total v = op_sum amounts
    ∧ ∀ limit offset,
        1 ≤ limit ≤ 100 → 0 ≤ offset →
        (Z.to_nat offset ≤ rank < Z.to_nat offset + Z.to_nat limit)%nat →
        ∃ resp,
          get_user_orders d' (models.OrderCreate.userId order) limit offset
          = inr resp
          ∧ models.OrderListResponse.data resp !! (rank - Z.to_nat offset)%nat
            = Some v.
Proof.
  intros (items & Hchk & Hfree & -> & ->)%create_order_returns Hstrip Hlen.
  apply checked_items_inr in Hchk as (Hne & Hu & Hitems & Hnd & Hall).
  set (stored := {| Order.userId := models.OrderCreate.userId order;
                    Order.items := items |}).
  set (d' := {| products := products d;
                orders := <[inserted_id := stored]> (orders d) |}).
  pose proof (surviving_items_all (products d) items Hall) as Hjs.
  assert (surviving_items (products d) items ≠ []) as Hjs_ne.
  { intros E. rewrite E in Hjs. apply Forall2_nil_inv_r in Hjs. subst items.
    apply Forall2_nil_inv_r in Hitems. done. }
  destruct (listed_at_rank d' (models.OrderCreate.userId order)
              inserted_id stored) as [rank Hrank].
  { simpl. apply lookup_insert_eq. }
  { by rewrite Hstrip. }
  { done. }
  exists rank, (order_view (products d) inserted_id stored),
    (item_amount <$> surviving_items (products d) items).
  split; [done|]. split; [|split; [|split; [done|]]].
  - simpl. apply Forall2_fmap_r.
    eapply Forall2_compose; [|exact Hitems|exact Hjs].
    intros i it [it' [k p]] (Hq & Hk & Hq') (Hit & Hpk & Hp). simpl in *.
    subst it' k. split; [done|]. by exists (OrderItem.productId it), p.
  - apply Forall2_fmap_r.
    eapply Forall2_compose; [|exact Hitems|exact Hjs].
    intros i it [it' [k p]] (Hq & Hk & Hq') (Hit & Hpk & Hp). simpl in *.
    subst it' k. exists (OrderItem.productId it), p.
    unfold item_amount. simpl. by rewrite Hq'.
  - intros limit offset Hl Ho Hr. apply Hrank; [|done..].
    apply parameters_ok_iff. split; [|done].
    destruct (models.OrderCreate.userId order); [done|]. simpl in *. lia.
Qed.

Lemma created_order_is_listed_witness :
  ∃ r d' resp v,
    create_order example.O1 example.catalog_only
      (example.request "u1"
         [example.request_item "64b7f1a2c3d4e5f601234567" 2;
          example.request_item "64b7f1a2c3d4e5f601234568" 1])
    = (inr r, d')
    ∧ get_user_orders d' "u1" 10 0 = inr resp
    ∧ models.OrderListResponse.data resp = [v]
    ∧ models.OrderListDetails.id v = models.OrderResponse.id r
    ∧ length (models.OrderListDetails.items v) = 2%nat.
Proof.
  destruct (created_order_is_listed example.O1 example.catalog_only
              (example.request "u1"
                 [example.request_item "64b7f1a2c3d4e5f601234567" 2;
                  example.request_item "64b7f1a2c3d4e5f601234568" 1])
              _ _ eq_refl eq_refl)
    as (rank & v & amounts & Hid & Hitems & _).
  { vm_compute. lia. }
  eexists _, _, _, _. split; [vm_compute; reflexivity|].
  split; [vm_compute; reflexivity|]. split; [reflexivity|].
  split; reflexivity.
Defined.

(** X8. Creating an order, or failing to, leaves the listings of every
    other user as they were: a listing whose trimmed [user_id] differs from
    the [userId] of the request gets the same response before and after. *)
Theorem other_listings_unchanged `{Arithmetic} inserted_id d
    (order : models.OrderCreate.t) r d' uid limit offset :
  create_order inserted_id d order = (r, d') →
  Py.strip uid ≠ models.OrderCreate.userId order →
  get_user_orders d' uid limit offset = get_user_orders d uid limit offset.
Proof.
  intros Hcreate Hu. destruct r as [e|r].
  - assert (d' = d) as ->; [|done]. revert Hcreate.
    unfold create_order, create_order_body.
    destruct (models.OrderCreate.validate order); [|by intros [= _ <-]].
    destruct (checked_items d order); [by intros [= _ <-]|].
    destruct (insert_one _ _ _); [done|by intros [= _ <-]].
  - apply create_order_returns in Hcreate
      as (items & _ & Hfree & _ & ->).
    apply get_user_orders_ext.
    rewrite surviving_grouped_orders_insert_other; [by destruct d|done|].
    simpl. congruence.
Qed.

Lemma other_listings_unchanged_witness :
  ∃ r d',
    create_order example.O1 example.catalog_only
      (example.request "u1"
         [example.request_item "64b7f1a2c3d4e5f601234567" 2])
    = (inr r, d')
    ∧ get_user_orders d' "u2" 10 0
      = get_user_orders example.catalog_only "u2" 10 0.
Proof.
  eexists _, _. split; [vm_compute; reflexivity|].
  refine (other_listings_unchanged example.O1 example.catalog_only
            (example.request "u1"
               [example.request_item "64b7f1a2c3d4e5f601234567" 2])
            _ _ "u2" 10 0 _ _).
  - vm_compute. reflexivity.
  - discriminate.
Defined.

End listing_extras.

(** ** Identities as strings, and back *)

Section object_id_strings.






(** What [fromhex] reads lies between the accumulator shifted by the
    digits read and the next such value. *)
Lemma fromhex_bounds s acc v :
  bson.fromhex acc s = Some v →
  (acc * 16 ^ N.of_nat (String.length s) ≤ v
   < (acc + 1) * 16 ^ N.of_nat (String.length s))%N.
Proof.
  revert acc. induction s as [|c s IH]; intros acc; simpl.
  { intros [= <-]. lia. }
  destruct (bson.hexdigit c) as [dg|] eqn:Hc; [|done].
  assert (dg < 16)%N as Hdg.
  { revert Hc. unfold bson.hexdigit.
    repeat (destruct (_ && _) eqn:?;
              [apply andb_true_iff in Heqb as [?%N.leb_le ?%N.leb_le];
               intros [= <-]; lia|clear Heqb]).
    done. }
  intros Hv%IH. rewrite Nat2N.inj_succ, N.pow_succ_r'. nia.
Qed.





(** Whatever [ObjectId(s)] accepts has 24 characters and twelve bytes. *)
Lemma ObjectId_init_Some s oid :
  bson.ObjectId_init s = Some oid →
  String.length s = 24%nat ∧ (oid < 16 ^ 24)%N.
Proof.
  unfold bson.ObjectId_init.
  destruct (Nat.eqb_spec (String.length s) 24) as [Hlen|]; [|done].
  intros Hv%fromhex_bounds. rewrite Hlen in Hv. split; [done|].
  change (N.of_nat 24) with 24%N in Hv. lia.
Qed.

End object_id_strings.

(** ** [create_product] *)

Section create_product_outcomes.
Import database products.



Lemma validate_iff (product : models.ProductCreate.t) :
  models.ProductCreate.validate product = true
  ↔ api.product_ok (model_dump product).
Proof.
  unfold models.ProductCreate.validate, api.product_ok. simpl.
  rewrite !andb_true_iff.
  assert (forallb models.SizeQuantity.validate
            (models.ProductCreate.sizes product) = true
          ↔ Forall (λ s, 0 ≤ models.SizeQuantity.quantity s)
              (models.ProductCreate.sizes product)) as ->.
  { rewrite <- Is_true_true, forallb_True. apply Forall_proper; [|done].
    intros s. unfold models.SizeQuantity.validate.
    by rewrite Is_true_true, Z.leb_le. }
  destruct (models.ProductCreate.name product),
    (models.ProductCreate.sizes product); simpl; intuition congruence.
Qed.


Lemma create_product_returns inserted_id d product r d' :
  create_product inserted_id d product = (inr r, d') →
  models.ProductCreate.validate product = true
  ∧ products d !! inserted_id = None
  ∧ r = {| models.ProductResponse.id := bson.str inserted_id |}
  ∧ d' = {| products := <[inserted_id := model_dump product]> (products d);
            orders := orders d |}.
Proof.
  unfold create_product, create_product_body, insert_one.
  destruct (models.ProductCreate.validate product); [|done].
  destruct (checked_product product); [done|].
  destruct (products d !! inserted_id) eqn:Hfree; [done|].
  by intros [= <- <-].
Qed.

Lemma create_product_raises inserted_id d product e d' :
  create_product inserted_id d product = (inl e, d') → d' = d.
Proof.
  unfold create_product, create_product_body.
  destruct (models.ProductCreate.validate product); [|by intros [= _ <-]].
  destruct (checked_product product); [by intros [= _ <-]|].
  destruct (insert_one _ _ _); [done|by intros [= _ <-]].
Qed.

End create_product_outcomes.

Section create_product_extras.
Import database products.


(** X10. When [create_product] raises, the store is as before. When it
    returns, the catalog has gained one document under the generated
    identity, which was free, holding the name, price and sizes of the
    request; every other product and every order is as before, and the
    identity returned is the string of the generated one. *)
Theorem create_product_effect inserted_id d
    (product : models.ProductCreate.t) r d' :
  create_product inserted_id d product = (r, d') →
  orders d' = orders d
  ∧ match r with
    | inl _ => d' = d
    | inr resp =>
        models.ProductResponse.id resp = bson.str inserted_id
        ∧ products d !! inserted_id = None
        ∧ products d' !! inserted_id
          = Some {| Product.name := models.ProductCreate.name product;
                    Product.price := models.ProductCreate.price product;
                    Product.sizes := models.ProductCreate.sizes product |}
        ∧ ∀ k, k ≠ inserted_id → products d' !! k = products d !! k
    end.
Proof.
  destruct r as [e|resp].
  - by intros ->%create_product_raises.
  - intros (_ & Hfree & -> & ->)%create_product_returns. simpl.
    split; [done|]. split; [done|]. split; [done|].
    split; [apply lookup_insert_eq|]. intros k Hk. by apply lookup_insert_ne.
Qed.

Lemma create_product_effect_witness :
  ∃ r d',
    create_product example.O1 example.catalog_only
      {| models.ProductCreate.name := "scarf";
         models.ProductCreate.price := 12.5%float;
         models.ProductCreate.sizes :=
           [ {| models.SizeQuantity.size := "one";
                models.SizeQuantity.quantity := 0 |} ] |}
    = (inr r, d')
    ∧ orders d' = orders example.catalog_only
    ∧ size (products d') = 3%nat.
Proof.
  eexists _, _. split; [vm_compute; reflexivity|].
  destruct (create_product_effect example.O1 example.catalog_only
              {| models.ProductCreate.name := "scarf";
                 models.ProductCreate.price := 12.5%float;
                 models.ProductCreate.sizes :=
                   [ {| models.SizeQuantity.size := "one";
                        models.SizeQuantity.quantity := 0 |} ] |}
              _ _ eq_refl) as [Horders _].
  split; [exact Horders|]. vm_compute. reflexivity.
Defined.



End create_product_extras.

(** ** [list_products] *)

Section list_products_lemmas.
Import database products.
Context {regex : RegexEngine}.

Lemma name_filter_cases name :
  match name_filter name with
  | inl e =>
      e = HTTPException 400 "Search term too long"
      ∧ ∃ n, name = Some n ∧ (100 < String.length (Py.strip n))%nat
  | inr None => name = None ∨ name = Some EmptyString
  | inr (Some pattern) =>
      ∃ n, name = Some n ∧ n ≠ EmptyString
           ∧ (String.length (Py.strip n) ≤ 100)%nat
           ∧ pattern = Py.re_escape (Py.strip n)
  end.
Proof.
  destruct name as [n|]; simpl; [|by left].
  destruct n as [|c n]; simpl; [by right|].
  destruct (Nat.ltb_spec 100 (String.length (Py.strip (String c n)))).
  - split; [done|]. eauto.
  - exists (String c n). by repeat split.
Qed.

Lemma size_filter_cases size :
  match size_filter size with
  | inl e =>
      e = HTTPException 400 "Size parameter too long"
      ∧ ∃ s, size = Some s ∧ (20 < String.length (Py.strip s))%nat
  | inr None => size = None ∨ size = Some EmptyString
  | inr (Some wanted) =>
      ∃ s, size = Some s ∧ s ≠ EmptyString
           ∧ (String.length (Py.strip s) ≤ 20)%nat
           ∧ wanted = Py.strip s
  end.
Proof.
  destruct size as [s|]; simpl; [|by left].
  destruct s as [|c s]; simpl; [by right|].
  destruct (Nat.ltb_spec 20 (String.length (Py.strip (String c s)))).
  - split; [done|]. eauto.
  - exists (String c s). by repeat split.
Qed.

(** A document matches the query exactly when the product is what the
    request asks for. *)
Lemma matches_selected name size q p :
  build_query name size = inr q →
  matches q p = true ↔ selected name size p.
Proof.
  unfold build_query, matches, selected.
  pose proof (name_filter_cases name) as Hn.
  pose proof (size_filter_cases size) as Hs.
  destruct (name_filter name) as [e|qn]; [done|].
  destruct (size_filter size) as [e|qs]; [done|]. simpl.
  intros [= <-]. simpl. rewrite andb_true_iff.
  match goal with
  | |- ?A ∧ ?B ↔ ?C ∧ ?D =>
      assert (A ↔ C) as H1; [|assert (B ↔ D) as H2; [|tauto]]
  end.
  - destruct qn as [pattern|].
    + destruct Hn as (n & -> & Hne & _ & ->). split.
      * by intros Hm n' [= <-] _.
      * intros Hm. by apply Hm.
    + split; [|done]. intros _ n Hname Hne. destruct Hn; congruence.
  - destruct qs as [wanted|].
    + destruct Hs as (s & -> & Hne & _ & ->).
      rewrite <- Is_true_true, existb_True, Exists_exists. split.
      * intros (sz & Hin & Hsz%bool_decide_unpack) s' [= <-] _. eauto.
      * intros Hm. destruct (Hm s eq_refl Hne) as (sz & Hin & Hsz).
        exists sz. split; [done|]. by apply bool_decide_pack.
    + split; [|done]. intros _ s Hsize Hne. destruct Hs; congruence.
Qed.

Lemma list_products_inr d name size limit offset resp :
  list_products d name size limit offset = inr resp →
  1 ≤ limit ∧ 0 ≤ offset
  ∧ ∃ q, build_query name size = inr q
         ∧ resp = {| models.ProductListResponse.data :=
                       to_list_details <$> find d q limit offset;
                     models.ProductListResponse.page :=
                       orders.page_of limit offset
                         (length (find d q limit offset)) |}.
Proof.
  unfold list_products, list_products_body.
  destruct (Z.leb_spec 1 limit); [|done].
  destruct (Z.leb_spec 0 offset); [|done]. simpl.
  destruct (build_query name size) as [e|q]; [done|]. simpl.
  intros [= <-]. split; [done|]. split; [done|]. exists q. split; [done|].
  by rewrite length_fmap.
Qed.

Lemma elem_of_find d q limit offset k p :
  (k, p) ∈ find d q limit offset →
  products d !! k = Some p ∧ matches q p = true.
Proof.
  unfold find, database.limit, database.skip.
  intros Hin%subseteq_take%subseteq_drop.
  apply list_elem_of_filter in Hin as [Hm Hin%elem_of_map_to_list]. done.
Qed.

Lemma find_ids d q limit offset : NoDup (find d q limit offset).*1.
Proof.
  eapply sublist_NoDup; [apply (NoDup_fst_map_to_list (products d))|].
  apply fmap_sublist. unfold find, database.limit, database.skip.
  etrans; [apply sublist_take|]. etrans; [apply sublist_drop|].
  apply sublist_filter.
Qed.

Lemma find_everything d q limit :
  Z.of_nat (size (products d)) ≤ limit →
  find d q limit 0
  = filter (λ kv, matches q kv.2 = true) (map_to_list (products d)).
Proof.
  intros Hlimit. unfold find, database.limit, database.skip. simpl.
  apply take_ge.
  pose proof (length_filter (λ kv : ObjectId * Product.t, matches q kv.2 = true)
                (map_to_list (products d))) as Hlen.
  rewrite length_map_to_list in Hlen. lia.
Qed.

End list_products_lemmas.

Section list_products_extras.
Import database products.

(** X12. [list_products] raises a request validation error when [limit] is
    below 1 or [offset] below 0 and accepts every larger [limit]; it raises
    400 "Search term too long" when the trimmed [name] has more than 100
    characters, and otherwise 400 "Size parameter too long" when the
    trimmed [size] has more than 20; in every other case it returns at
    most [limit] products, with the cursors of the window. *)
Theorem list_products_outcome `{RegexEngine} d name size limit offset :
  match list_products d name size limit offset with
  | inl e =>
      (e = RequestValidationError ∧ ¬ (1 ≤ limit ∧ 0 ≤ offset))
      ∨ (1 ≤ limit ∧ 0 ≤ offset
         ∧ e = HTTPException 400 "Search term too long"
         ∧ ∃ n, name = Some n ∧ (100 < String.length (Py.strip n))%nat)
      ∨ (1 ≤ limit ∧ 0 ≤ offset
         ∧ e = HTTPException 400 "Size parameter too long"
         ∧ (∀ n, name = Some n → (String.length (Py.strip n) ≤ 100)%nat)
         ∧ ∃ s, size = Some s ∧ (20 < String.length (Py.strip s))%nat)
  | inr resp =>
      1 ≤ limit ∧ 0 ≤ offset
      ∧ (∀ n, name = Some n → (String.length (Py.strip n) ≤ 100)%nat)
      ∧ (∀ s, size = Some s → (String.length (Py.strip s) ≤ 20)%nat)
      ∧ Z.of_nat (length (models.ProductListResponse.data resp)) ≤ limit
      ∧ models.ProductListResponse.page resp
        = orders.page_of limit offset
            (length (models.ProductListResponse.data resp))
  end.
Proof.
  unfold list_products, list_products_body, build_query.
  destruct (Z.leb_spec 1 limit); [|left; split; [done|lia]].
  destruct (Z.leb_spec 0 offset); [|left; split; [done|lia]]. simpl.
  pose proof (name_filter_cases name) as Hn.
  pose proof (size_filter_cases size) as Hs.
  assert (∀ qn, name_filter name = inr qn →
            ∀ n, name = Some n → (String.length (Py.strip n) ≤ 100)%nat)
    as Hname.
  { intros qn E n ->. rewrite E in Hn. destruct qn as [pattern|].
    - by destruct Hn as (n' & [= <-] & _ & Hlen & _).
    - destruct Hn as [|[= ->]]; [done|]. simpl. lia. }
  destruct (name_filter name) as [e|qn]; simpl.
  { right. left. tauto. }
  destruct (size_filter size) as [e|qs]; simpl.
  { right. right. split; [done|]. split; [done|]. split; [apply Hs|].
    split; [by eapply Hname|apply Hs]. }
  split; [done|]. split; [done|]. split; [by eapply Hname|]. split.
  - intros s ->. destruct qs as [wanted|].
    + by destruct Hs as (s' & [= <-] & _ & Hlen & _).
    + destruct Hs as [|[= ->]]; [done|]. simpl. lia.
  - rewrite length_fmap. unfold find, database.limit. split; [|done].
    rewrite length_take. lia.
Qed.

(** X13. Every product that [list_products] returns is in the catalog,
    under the identity shown, with the name and price shown, and is what
    the request asks for; no identity is shown twice; and with [offset] 0
    and a [limit] of at least the number of products in the catalog, every
    product asked for is returned. *)
Theorem list_products_entries `{RegexEngine} d name size' limit offset resp :
  list_products d name size' limit offset = inr resp →
  NoDup (models.ProductListDetails.id <$> models.ProductListResponse.data resp)
  ∧ (∀ v, v ∈ models.ProductListResponse.data resp →
          ∃ k p, products d !! k = Some p
                 ∧ selected name size' p
                 ∧ v = {| models.ProductListDetails.id := bson.str k;
                          models.ProductListDetails.name := Product.name p;
                          models.ProductListDetails.price := Product.price p |})
  ∧ (offset = 0 → Z.of_nat (size (products d)) ≤ limit →
     ∀ k p, products d !! k = Some p → selected name size' p →
            {| models.ProductListDetails.id := bson.str k;
               models.ProductListDetails.name := Product.name p;
               models.ProductListDetails.price := Product.price p |}
            ∈ models.ProductListResponse.data resp).
Proof.
  intros (Hl & Ho & q & Hq & ->)%list_products_inr. simpl. split; [|split].
  - rewrite <- list_fmap_compose.
    change (models.ProductListDetails.id ∘ to_list_details)
      with (bson.str ∘ (fst : ObjectId * Product.t → ObjectId)).
    rewrite list_fmap_compose. apply NoDup_fmap; [apply _|apply find_ids].
  - intros v ([k p] & -> & [Hk Hm]%elem_of_find)%list_elem_of_fmap.
    exists k, p. split; [done|]. split; [|done].
    by apply (matches_selected name size' q).
  - intros -> Hlimit k p Hk Hsel. rewrite find_everything by done.
    apply list_elem_of_fmap. exists (k, p). split; [done|].
    apply list_elem_of_filter. split; [|by apply elem_of_map_to_list].
    by apply (matches_selected name size' q).
Qed.

Lemma list_products_entries_witness :
  ∃ resp,
    list_products example.full (Some " Shi ") (Some "large") 1000 0 = inr resp
    ∧ models.ProductListDetails.name <$> models.ProductListResponse.data resp
      = ["shirt"]
    ∧ NoDup (models.ProductListDetails.id
               <$> models.ProductListResponse.data resp).
Proof.
  eexists. split; [vm_compute; reflexivity|]. split; [reflexivity|].
  refine (proj1 (list_products_entries example.full (Some " Shi ")
                   (Some "large") 1000 0 _ _)).
  vm_compute. reflexivity.
Defined.

(** X14. A product that [create_product] has stored is returned by an
    unfiltered listing whose [limit] is at least the number of products
    in the catalog, under the identity [create_product] returned and with
    the name and price of the request. *)
Theorem created_product_is_listed `{RegexEngine} inserted_id d
    (product : models.ProductCreate.t) r d' limit :
  create_product inserted_id d product = (inr r, d') →
  Z.of_nat (size (products d')) ≤ limit →
  ∃ resp,
    list_products d' None None limit 0 = inr resp
    ∧ {| models.ProductListDetails.id := models.ProductResponse.id r;
         models.ProductListDetails.name := models.ProductCreate.name product;
         models.ProductListDetails.price := models.ProductCreate.price product |}
      ∈ models.ProductListResponse.data resp.
Proof.
  intros (_ & Hfree & -> & ->)%create_product_returns Hlimit. simpl in *.
  assert (1 ≤ limit) as Hl.
  { rewrite map_size_insert_None in Hlimit by done. lia. }
  unfold list_products, list_products_body.
  rewrite (proj2 (Z.leb_le 1 limit)) by done. simpl.
  eexists. split; [done|]. simpl. rewrite find_everything by done.
  apply list_elem_of_fmap. exists (inserted_id, model_dump product).
  split; [done|]. apply list_elem_of_filter. split; [done|].
  apply elem_of_map_to_list. simpl. apply lookup_insert_eq.
Qed.

Lemma created_product_is_listed_witness :
  ∃ r d' resp,
    create_product example.O1 example.catalog_only
      {| models.ProductCreate.name := "scarf";
         models.ProductCreate.price := 12.5%float;
         models.ProductCreate.sizes :=
           [ {| models.SizeQuantity.size := "one";
                models.SizeQuantity.quantity := 0 |} ] |}
    = (inr r, d')
    ∧ list_products d' None None 3 0 = inr resp
    ∧ {| models.ProductListDetails.id := "64b7f1a2c3d4e5f601239999";
         models.ProductListDetails.name := "scarf";
         models.ProductListDetails.price := 12.5%float |}
      ∈ models.ProductListResponse.data resp.
Proof.
  assert (∃ r d', create_product example.O1 example.catalog_only
            {| models.ProductCreate.name := "scarf";
               models.ProductCreate.price := 12.5%float;
               models.ProductCreate.sizes :=
                 [ {| models.SizeQuantity.size := "one";
                      models.SizeQuantity.quantity := 0 |} ] |}
          = (inr r, d')
          ∧ models.ProductResponse.id r = "64b7f1a2c3d4e5f601239999"
          ∧ size (products d') = 3%nat) as (r & d' & Hcreate & Hid & Hsize)
    by (eexists _, _; split; [vm_compute; reflexivity|split; reflexivity]).
  destruct (created_product_is_listed example.O1 example.catalog_only
              _ r d' 3 Hcreate) as (resp & Hlist & Hin).
  { rewrite Hsize. done. }
  exists r, d', resp. split; [exact Hcreate|]. split; [exact Hlist|].
  rewrite <- Hid. exact Hin.
Defined.

End list_products_extras.

(** ** Stores built through the interface *)

Section interface_invariant.
Import database.

Lemma consistent_empty : api.consistent api.empty.
Proof. split; apply map_Forall_empty. Qed.

Lemma order_ok_insert ps k p o :
  api.order_ok ps o → api.order_ok (<[k := p]> ps) o.
Proof.
  intros (Hu & Hne & Hitems & Hnd). repeat split; [done..| |done].
  eapply Forall_impl; [exact Hitems|]. intros it [Hq Hp]. split; [done|].
  destruct (decide (k = OrderItem.productId it)) as [->|Hk].
  - rewrite lookup_insert_eq. eauto.
  - by rewrite lookup_insert_ne.
Qed.

Lemma create_product_consistent inserted_id d product :
  api.consistent d →
  api.consistent (products.create_product inserted_id d product).2.
Proof.
  intros [Hps Hos].
  destruct (products.create_product inserted_id d product) as [[e|r] d'] eqn:E.
  - apply create_product_raises in E as ->. by split.
  - apply create_product_returns in E as (Hv & Hfree & _ & ->). split; simpl.
    + apply map_Forall_insert_2; [by apply validate_iff|done].
    + eapply map_Forall_impl; [exact Hos|]. intros k o. apply order_ok_insert.
Qed.

Lemma stored_quantities l items :
  Forall2 api.stored_as l items → Forall (λ it, 0 < OrderItem.qty it) items.
Proof.
  induction 1 as [|i it l items (Hq & _ & Hq') _ IH]; constructor; [lia|done].
Qed.

Lemma create_order_consistent inserted_id d order :
  api.consistent d →
  api.consistent (orders.create_order inserted_id d order).2.
Proof.
  intros [Hps Hos].
  destruct (orders.create_order inserted_id d order) as [[e|r] d'] eqn:E.
  - assert (d' = d) as ->; [|by split]. revert E.
    unfold orders.create_order, orders.create_order_body.
    destruct (models.OrderCreate.validate order); [|by intros [= _ <-]].
    destruct (orders.checked_items d order); [by intros [= _ <-]|].
    destruct (insert_one _ _ _); [done|by intros [= _ <-]].
  - apply create_order_returns in E as (items & Hchk & Hfree & _ & ->).
    apply checked_items_inr in Hchk as (Hne & Hu & Hitems & Hnd & Hall).
    split; simpl; [done|]. apply map_Forall_insert_2; [|done].
    split; [done|]. split.
    { simpl. intros ->. apply Forall2_nil_inv_r in Hitems. done. }
    split; [|done]. simpl.
    pose proof (stored_quantities _ _ Hitems) as Hq.
    rewrite Forall_forall in Hq |- *. intros it Hin. split; [by apply Hq|].
    apply Hall. by apply list_elem_of_fmap_2.
Qed.

Lemma after_consistent ws : api.consistent (api.after ws).
Proof.
  unfold api.after. generalize consistent_empty. generalize api.empty.
  induction ws as [|w ws IH]; intros d Hd; [done|]. simpl. apply IH.
  destruct w; [by apply create_product_consistent
              |by apply create_order_consistent].
Qed.

End interface_invariant.

Section interface_extras.
Import database.

(** X15. Every store that the two writing requests build from the empty
    store is consistent: each product has a name, a price greater than 0,
    at least one size and no negative quantity; each order has a [userId]
    that is not blank and at least one item, each item has a positive
    quantity and references a product of the catalog, and no order
    references a product twice. Each of the two requests keeps a
    consistent store consistent, whether it returns or raises. *)
Theorem interface_keeps_store_consistent :
  api.consistent api.empty
  ∧ (∀ d w, api.consistent d → api.consistent (api.apply d w))
  ∧ ∀ ws, api.consistent (api.after ws).
Proof.
  split; [apply consistent_empty|]. split; [|apply after_consistent].
  intros d [inserted_id product|inserted_id order] Hd;
    [by apply create_product_consistent|by apply create_order_consistent].
Qed.

(** X16. In a store built through the interface no item is ever dropped
    from a listing: every listed order shows one entry per stored item, in
    order, with its quantity and the identity of its product; and every
    stored order of the user is listed, at some rank, by the windows over
    that rank. *)
Theorem interface_listings_are_whole `{Arithmetic} ws uid limit offset resp :
  orders.get_user_orders (api.after ws) uid limit offset = inr resp →
  (∀ v, v ∈ models.OrderListResponse.data resp →
        ∃ k o,
          orders (api.after ws) !! k = Some o
          ∧ Order.userId o = Py.strip uid
          ∧ models.OrderListDetails.id v = bson.str k
          ∧ Forall2 (λ it vi,
               models.OrderItemDetails.qty vi = OrderItem.qty it
               ∧ models.ProductDetails.id
                   (models.OrderItemDetails.productDetails vi)
                 = bson.str (OrderItem.productId it))
               (Order.items o) (models.OrderListDetails.items v))
  ∧ (∀ k o,
       orders (api.after ws) !! k = Some o →
       Order.userId o = Py.strip uid →
       ∃ rank : nat, ∀ limit' offset',
         1 ≤ limit' ≤ 100 → 0 ≤ offset' →
         (Z.to_nat offset' ≤ rank < Z.to_nat offset' + Z.to_nat limit')%nat →
         ∃ resp' v,
           orders.get_user_orders (api.after ws) uid limit' offset' = inr resp'
           ∧ models.OrderListResponse.data resp' !! (rank - Z.to_nat offset')%nat
             = Some v
           ∧ models.OrderListDetails.id v = bson.str k).
Proof.
  intros Hget. destruct (after_consistent ws) as [_ Hos].
  pose proof (get_user_orders_inr _ _ _ _ _ Hget) as (Hp & Hu & _).
  assert (∀ k o, orders (api.after ws) !! k = Some o →
            Forall2 (λ it j, j.1 = it ∧ j.2.1 = OrderItem.productId it
                             ∧ products (api.after ws)
                                 !! OrderItem.productId it = Some j.2.2)
              (Order.items o)
              (orders.surviving_items (products (api.after ws))
                 (Order.items o))
            ∧ orders.surviving_items (products (api.after ws))
                (Order.items o) ≠ []) as Hwhole.
  { intros k o Hk. destruct (Hos k o Hk) as (_ & Hne & Hitems & _).
    assert (Forall2 (λ it j, j.1 = it ∧ j.2.1 = OrderItem.productId it
                             ∧ products (api.after ws)
                                 !! OrderItem.productId it = Some j.2.2)
              (Order.items o)
              (orders.surviving_items (products (api.after ws))
                 (Order.items o))) as Hjs.
    { apply surviving_items_all.
      intros k' (it & -> & Hin)%list_elem_of_fmap.
      rewrite Forall_forall in Hitems. by apply Hitems. }
    split; [done|]. intros E. rewrite E in Hjs.
    by apply Forall2_nil_inv_r in Hjs. }
  split.
  - intros v Hv.
    destruct (elem_of_data _ _ _ _ _ _ Hget Hv)
      as (g & k & o & -> & Hk & Ho & Hg).
    exists k, o. split; [done|]. split; [done|].
    apply grouped_order_Some in Hg as [_ ->]. split; [done|]. simpl.
    apply Forall2_fmap_r. eapply Forall2_impl; [apply (Hwhole k o Hk)|].
    intros it [it' [pk p]] (Hit & Hpk & _). simpl in *. by subst.
  - intros k o Hk Ho.
    destruct (listed_at_rank (api.after ws) uid k o Hk Ho)
      as [rank Hrank]; [by apply (Hwhole k o)|].
    exists rank. intros limit' offset' Hl Hoff Hr.
    destruct (Hrank limit' offset') as (resp' & Hget' & Hlook); [|done..|].
    { apply parameters_ok_iff. apply parameters_ok_iff in Hp. lia. }
    eauto.
Qed.

Lemma interface_listings_are_whole_witness :
  ∃ resp v,
    orders.get_user_orders
      (api.after
         [api.CreateProduct example.P1
            {| models.ProductCreate.name := "shirt";
               models.ProductCreate.price := 9.99%float;
               models.ProductCreate.sizes :=
                 [ {| models.SizeQuantity.size := "large";
                      models.SizeQuantity.quantity := 4 |} ] |};
          api.CreateOrder example.O1
            (example.request "u1"
               [example.request_item "64b7f1a2c3d4e5f601234567" 2])])
      "u1" 10 0
    = inr resp
    ∧ models.OrderListResponse.data resp = [v]
    ∧ ∃ k o,
        models.OrderListDetails.id v = bson.str k
        ∧ length (models.OrderListDetails.items v) = length (Order.items o).
Proof.
  set (ws := [api.CreateProduct example.P1 _; api.CreateOrder example.O1 _]).
  assert (∃ resp v,
            orders.get_user_orders (api.after ws) "u1" 10 0 = inr resp
            ∧ models.OrderListResponse.data resp = [v])
    as (resp & v & Hget & Hdata)
    by (eexists _, _; split; [vm_compute; reflexivity|reflexivity]).
  destruct (proj1 (interface_listings_are_whole ws "u1" 10 0 resp Hget) v)
    as (k & o & _ & _ & Hid & Hitems).
  { rewrite Hdata. left. }
  exists resp, v. split; [exact Hget|]. split; [exact Hdata|].
  exists k, o. split; [exact Hid|].
  symmetry. exact (Forall2_length _ _ _ Hitems).
Defined.

End interface_extras.
